(** * template_upload: verification of [s3_docs.py]

    A shallow embedding of [DocxS3Uploader] and [clear_proxy_environment].

    The S3 endpoint and the file system are external: they are an
    environment [Env] that answers every call, and whose answer may depend
    on everything that was called before (the history).  A method of the
    class is a computation [M A] that reads the environment, extends the
    history by the calls it makes, and either returns a value or raises a
    Python exception.  [try ... except] is [try_except].

    Not modelled: logging (it only writes to the log handler), the
    constructors of [aioboto3.Session] and [Config] (plain objects built from
    the stored credentials), signals that are not subclasses of [Exception]
    ([KeyboardInterrupt], task cancellation).  The coroutines handed to
    [asyncio.gather] are run one after the other, in list order. *)

From Stdlib Require Import ZArith Ascii.
From stdpp Require Import gmap strings list fin_maps.

Local Open Scope string_scope.
Local Open Scope list_scope.

(** ** Exceptions and results *)

(** The subclasses of [Exception] that the code tells apart:
    [botocore.exceptions.ClientError] with the code of its response,
    [IOError] (an alias of [OSError]) from the file system, [ValueError]
    from [pathlib], and every other [Exception]. *)
Inductive exn : Type :=
| ClientError (code : string)
| IOError (msg : string)
| ValueError (msg : string)
| OtherException (msg : string).

Inductive res (A : Type) : Type :=
| Return (a : A)
| Raise (e : exn).
Arguments Return {A} a.
Arguments Raise {A} e.

Definition is_raise {A} (r : res A) : bool :=
  match r with Raise _ => true | Return _ => false end.

(** ** Calls to the outside world *)

(** The fields of a [DocxS3Uploader]; every client is opened with them. *)
Record Uploader : Type := {
  aws_access_key_id : string;
  aws_secret_access_key : string;
  endpoint_url : string;
  bucket_name : string
}.

Definition bytes := list Byte.byte.

Inductive event : Type :=
| EvClient (self : Uploader)                 (* async with session.client('s3', ...) *)
| EvListBuckets                              (* s3.list_buckets() *)
| EvHeadBucket (bucket : string)             (* s3.head_bucket(Bucket=...) *)
| EvCreateBucket (bucket : string)           (* s3.create_bucket(Bucket=...) *)
| EvPutObject (bucket key : string) (body : bytes) (content_type : string)
| EvPresign (bucket key : string) (expires_in : Z)
| EvExists (path : string)                   (* folder.exists() *)
| EvIsDir (path : string)                    (* folder.is_dir() *)
| EvGlob (path pattern : string)             (* folder.glob(pattern) *)
| EvRead (path : string).                    (* aiofiles.open(path, 'rb') + read() *)

Definition history := list event.

(** The environment: the answer to each call, given the calls made so far.
    [env_glob] answers with the matches as paths relative to the folder,
    each one a list of names.  The looks at the folder raise too: [pathlib]
    lets an [OSError] such as [PermissionError] through. *)
Record Env : Type := {
  env_client : history -> Uploader -> res unit;
  env_list_buckets : history -> res (list string);
  env_head_bucket : history -> string -> res unit;
  env_create_bucket : history -> string -> res unit;
  env_put_object : history -> string -> string -> bytes -> string -> res unit;
  env_presign : history -> string -> string -> Z -> res string;
  env_exists : history -> string -> res bool;
  env_is_dir : history -> string -> res bool;
  env_glob : history -> string -> string -> res (list (list string));
  env_read : history -> string -> res bytes
}.

(** ** The monad of methods *)

Definition M (A : Type) : Type := Env -> history -> res A * history.

Definition ret {A} (a : A) : M A := fun _ h => (Return a, h).

Definition raise {A} (e : exn) : M A := fun _ h => (Raise e, h).

Definition bind {A B} (m : M A) (k : A -> M B) : M B :=
  fun env h =>
    match m env h with
    | (Return a, h') => k a env h'
    | (Raise e, h') => (Raise e, h')
    end.

Declare Scope py_scope.
Delimit Scope py_scope with py.
Notation "x <- m ;; k" := (bind m (fun x => k))
  (at level 100, m at next level, right associativity) : py_scope.
Local Open Scope py_scope.

(** [try: body  except Exception as e: handler e].  Every exception of the
    model is an [Exception], so a handler list that ends in
    [except Exception] is a total function of the exception. *)
Definition try_except {A} (body : M A) (handler : exn -> M A) : M A :=
  fun env h =>
    match body env h with
    | (Return a, h') => (Return a, h')
    | (Raise e, h') => handler e env h'
    end.

(** One call: ask the environment at the current history, then record it. *)
Definition call {A} (answer : Env -> history -> res A) (ev : event) : M A :=
  fun env h => (answer env h, h ++ [ev]).

Definition s3_client (self : Uploader) : M unit :=
  call (fun env h => env_client env h self) (EvClient self).
Definition s3_list_buckets : M (list string) :=
  call env_list_buckets EvListBuckets.
Definition s3_head_bucket (b : string) : M unit :=
  call (fun env h => env_head_bucket env h b) (EvHeadBucket b).
Definition s3_create_bucket (b : string) : M unit :=
  call (fun env h => env_create_bucket env h b) (EvCreateBucket b).
Definition s3_put_object (b k : string) (body : bytes) (ct : string) : M unit :=
  call (fun env h => env_put_object env h b k body ct) (EvPutObject b k body ct).
Definition s3_generate_presigned_url (b k : string) (ttl : Z) : M string :=
  call (fun env h => env_presign env h b k ttl) (EvPresign b k ttl).
Definition fs_exists (p : string) : M bool :=
  call (fun env h => env_exists env h p) (EvExists p).
Definition fs_is_dir (p : string) : M bool :=
  call (fun env h => env_is_dir env h p) (EvIsDir p).
Definition fs_glob (p pat : string) : M (list (list string)) :=
  call (fun env h => env_glob env h p pat) (EvGlob p pat).
Definition fs_read (p : string) : M bytes :=
  call (fun env h => env_read env h p) (EvRead p).

(** ** [clear_proxy_environment] *)

Module Environ.

(** [os.environ] *)
Abbreviation environ := (gmap string string).

Definition proxy_vars : list string :=
  [ "HTTP_PROXY"; "http_proxy";
    "HTTPS_PROXY"; "https_proxy";
    "NO_PROXY"; "no_proxy" ].

(** [del os.environ[var]] raises [KeyError] on an absent key. *)
Definition del_item (var : string) (e : environ) : option environ :=
  match e !! var with
  | Some _ => Some (delete var e)
  | None => None
  end.

(** The loop [for var in vars: if var in os.environ: del os.environ[var]];
    [None] is an escaping [KeyError]. *)
Fixpoint clear_vars (vars : list string) (e : environ) : option environ :=
  match vars with
  | [] => Some e
  | var :: rest =>
      if bool_decide (is_Some (e !! var))
      then match del_item var e with
           | Some e' => clear_vars rest e'
           | None => None
           end
      else clear_vars rest e
  end.

Definition clear_proxy_environment (e : environ) : option (environ * string) :=
  match clear_vars proxy_vars e with
  | Some e' => Some (e', "Прокси-настройки удалены из переменных окружения")
  | None => None
  end.

End Environ.

(** ** Paths ([pathlib]) *)

(** The host convention: [str] of a path joins its names with [/] on POSIX
    and with a backslash on Windows. *)
Inductive flavour : Type := Posix | Windows.

Definition backslash : ascii := ascii_of_nat 92.
Definition slash : ascii := ascii_of_nat 47.

Definition sep (fl : flavour) : string :=
  match fl with
  | Posix => String slash EmptyString
  | Windows => String backslash EmptyString
  end.

(** A pure path: its anchor (drive and root, empty for a relative path) and
    the names below it. *)
Record path : Type := { anchor : string; names : list string }.

(** [str(p)] *)
Definition path_str (fl : flavour) (p : path) : string :=
  match names p with
  | [] => if String.eqb (anchor p) "" then "." else anchor p
  | _ => anchor p +:+ String.concat (sep fl) (names p)
  end.

(** [folder / rel], for a relative [rel]. *)
Definition joinpath (folder : path) (rel : list string) : path :=
  {| anchor := anchor folder; names := names folder ++ rel |}.

Fixpoint strip_names (pre l : list string) : option (list string) :=
  match pre, l with
  | [], _ => Some l
  | a :: pre', b :: l' => if String.eqb a b then strip_names pre' l' else None
  | _ :: _, [] => None
  end.

(** [p.relative_to(other)]: [ValueError] unless [other] is an ancestor. *)
Definition relative_to (p other : path) : res path :=
  if String.eqb (anchor p) (anchor other) then
    match strip_names (names other) (names p) with
    | Some rest => Return {| anchor := ""; names := rest |}
    | None => Raise (ValueError "is not in the subpath of")
    end
  else Raise (ValueError "is not in the subpath of").

(** [s.replace(old, new)] for one-character [old] and [new]. *)
Fixpoint replace_char (old new : ascii) (s : string) : string :=
  match s with
  | EmptyString => EmptyString
  | String c s' =>
      String (if Ascii.eqb c old then new else c) (replace_char old new s')
  end.

(** [os.path.basename]: what follows the last separator.  On POSIX this is
    [posixpath.basename].  On Windows both slashes separate, and
    [ntpath.basename] first strips a drive or UNC prefix ([C:a.docx] has
    the base name [a.docx]), which is not modelled: what is stated about
    the key that [upload_file] chooses by itself is stated for POSIX. *)
Definition is_sep (fl : flavour) (c : ascii) : bool :=
  match fl with
  | Posix => Ascii.eqb c slash
  | Windows => Ascii.eqb c slash || Ascii.eqb c backslash
  end.

Fixpoint basename_aux (fl : flavour) (s acc : string) : string :=
  match s with
  | EmptyString => acc
  | String c s' =>
      if is_sep fl c then basename_aux fl s' EmptyString
      else basename_aux fl s' (acc +:+ String c EmptyString)
  end.

Definition basename (fl : flavour) (s : string) : string :=
  basename_aux fl s EmptyString.

(** ** [DocxS3Uploader] *)

(** [(success, url)]: the url is a [str] or [None]. *)
Definition outcome : Type := bool * option string.

Definition docx_content_type : string :=
  "application/vnd.openxmlformats-officedocument.wordprocessingml.document".

(** [asyncio.gather] with [return_exceptions=True]: every task runs, and
    an exception a task raises becomes its entry in the list. *)
Definition settle {A} (task : M A) : M (res A) :=
  fun env h => let (r, h') := task env h in (Return r, h').

Fixpoint gather {A} (tasks : list (M A)) : M (list (res A)) :=
  match tasks with
  | [] => ret []
  | task :: rest =>
      r <- settle task ;;
      rs <- gather rest ;;
      ret (r :: rs)
  end.

Section DocxS3Uploader.

Variable fl : flavour.
Variable self : Uploader.

(** l.59-85 *)
Definition get_file_url (object_key : string) : M string :=
  try_except
    (_ <- s3_client self ;;
     presigned_url <-
       s3_generate_presigned_url (bucket_name self) object_key 604800 ;;
     ret presigned_url)
    (fun _ =>
       ret (endpoint_url self +:+ "/" +:+ bucket_name self
            +:+ "/" +:+ object_key)).

(** l.87-127.  Both handlers return [(False, None)]. *)
Definition upload_file (file_path : string) (object_name : option string)
  : M outcome :=
  let object_name :=
    match object_name with
    | None => basename fl file_path
    | Some name => name
    end in
  try_except
    (_ <- s3_client self ;;
     content <- fs_read file_path ;;
     _ <- s3_put_object (bucket_name self) object_name content
            docx_content_type ;;
     file_url <- get_file_url object_name ;;
     ret (true, Some file_url))
    (fun e =>
       match e with
       | ClientError _ => ret (false, None)
       | _ => ret (false, None)
       end).

(** l.129-162.  The code of a [ClientError] selects the log line only:
    404, 403 and every other code end in the same [return False]. *)
Definition check_bucket_exists : M bool :=
  try_except
    (_ <- s3_client self ;;
     _ <- s3_head_bucket (bucket_name self) ;;
     ret true)
    (fun e =>
       match e with
       | ClientError error_code => ret false
       | _ => ret false
       end).

(** l.164-190 *)
Definition create_bucket_if_not_exists : M bool :=
  found <- check_bucket_exists ;;
  if found then ret true
  else
    try_except
      (_ <- s3_client self ;;
       _ <- s3_create_bucket (bucket_name self) ;;
       ret true)
      (fun e =>
         match e with
         | ClientError _ => ret false
         | _ => ret false
         end).

(** l.192-213 *)
Definition list_buckets : M (list string) :=
  try_except
    (_ <- s3_client self ;;
     buckets <- s3_list_buckets ;;
     ret buckets)
    (fun _ => ret []).

(** l.224-246 of [upload_folder]: the checks before the upload.  [None]
    is one of the four [return {}]; [Some docx_files] reaches the upload. *)
Definition find_docx_files (folder : path) : M (option (list path)) :=
  buckets <- list_buckets ;;
  match buckets with
  | [] => ret None
  | _ =>
      bucket_created <-
        (if bool_decide (bucket_name self ∈ buckets) then ret true
         else create_bucket_if_not_exists) ;;
      if negb bucket_created then ret None
      else
        folder_exists <- fs_exists (path_str fl folder) ;;
        folder_is_dir <-
          (if folder_exists then fs_is_dir (path_str fl folder)
           else ret false) ;;
        if negb folder_exists || negb folder_is_dir then ret None
        else
          found <- fs_glob (path_str fl folder) "**/*.docx" ;;
          match map (joinpath folder) found with
          | [] => ret None
          | docx_files => ret (Some docx_files)
          end
  end.

(** l.253-257: the object key of one file. *)
Definition object_name_of (folder : path) (prefix : string)
    (file_path : path) : res string :=
  match relative_to file_path folder with
  | Raise e => Raise e
  | Return relative_path =>
      let object_name :=
        if String.eqb prefix "" then path_str fl relative_path
        else prefix +:+ path_str fl relative_path in
      Return (replace_char backslash slash object_name)
  end.

Section Upload.

(** [self.upload_file], looked up on the object when the loop runs. *)
Variable upload_file_method : string -> option string -> M outcome.

(** l.248-263: one coroutine per file; none of them runs yet. *)
Fixpoint make_tasks (folder : path) (prefix : string)
    (docx_files : list path) : res (list (M outcome)) :=
  match docx_files with
  | [] => Return []
  | file_path :: rest =>
      match object_name_of folder prefix file_path with
      | Raise e => Raise e
      | Return object_name =>
          match make_tasks folder prefix rest with
          | Raise e => Raise e
          | Return tasks =>
              Return (upload_file_method (path_str fl file_path)
                        (Some object_name) :: tasks)
          end
      end
  end.

(** l.269-277: the loop over [zip(docx_files, results)]. *)
Definition record_result (upload_results : gmap string outcome)
    (entry : path * res outcome) : gmap string outcome :=
  let (file_path, result) := entry in
  let str_path := path_str fl file_path in
  match result with
  | Raise _ => <[str_path := (false, None)]> upload_results
  | Return (success, url) => <[str_path := (success, url)]> upload_results
  end.

Definition collect_results (docx_files : list path)
    (results : list (res outcome)) : gmap string outcome :=
  foldl record_result ∅ (zip docx_files results).

(** l.215-282 *)
Definition upload_folder_with (folder : path) (prefix : string)
  : M (gmap string outcome) :=
  found <- find_docx_files folder ;;
  match found with
  | None => ret ∅
  | Some docx_files =>
      match make_tasks folder prefix docx_files with
      | Raise e => raise e
      | Return tasks =>
          results <- gather tasks ;;
          ret (collect_results docx_files results)
      end
  end.

End Upload.

Definition upload_folder (folder : path) (prefix : string)
  : M (gmap string outcome) :=
  upload_folder_with upload_file folder prefix.

End DocxS3Uploader.

(** ** What the properties observe *)

Definition is_create_bucket (ev : event) : bool :=
  match ev with EvCreateBucket _ => true | _ => false end.

(** How often [create_bucket] was called in a history. *)
Definition create_bucket_calls (h : history) : nat :=
  length (List.filter is_create_bucket h).

Definition is_put_object_to (key : string) (ev : event) : bool :=
  match ev with
  | EvPutObject _ k _ _ => String.eqb k key
  | _ => false
  end.

(** Whether a character occurs in a string. *)
Fixpoint occurs (c : ascii) (s : string) : bool :=
  match s with
  | EmptyString => false
  | String c' s' => Ascii.eqb c' c || occurs c s'
  end.

(** What l.272-277 store for one gathered result. *)
Definition stored_outcome (result : res outcome) : outcome :=
  match result with
  | Raise _ => (false, None)
  | Return o => o
  end.

(** The two shapes of an outcome: [(True, url)] and [(False, None)]. *)
Definition outcome_shape (o : outcome) : Prop :=
  (∃ url, o = (true, Some url)) ∨ o = (false, None).

Definition url_nonempty (o : outcome) : Prop := o.2 ≠ Some "".

(** [generate_presigned_url] answers with a url, never the empty string. *)
Definition presigned_urls_nonempty (env : Env) : Prop :=
  ∀ h bucket key ttl url,
    env_presign env h bucket key ttl = Return url → url ≠ "".

(** The looks at the folder, [exists], [is_dir] and [glob], answer without
    raising. *)
Definition folder_checks_answer (env : Env) : Prop :=
  (∀ h p, is_raise (env_exists env h p) = false)
  ∧ (∀ h p, is_raise (env_is_dir env h p) = false)
  ∧ (∀ h p pattern, is_raise (env_glob env h p pattern) = false).


(** ** Concrete runs *)

Module Sample.

Definition uploader : Uploader :=
  {| aws_access_key_id := "AKIA";
     aws_secret_access_key := "secret";
     endpoint_url := "https://s3.example:443";
     bucket_name := "docs" |}.

Definition templates : path := {| anchor := ""; names := ["templates"] |}.

(** A store that answers every request, and a folder with three files. *)
Definition env_ok : Env :=
  {| env_client := fun _ _ => Return tt;
     env_list_buckets := fun _ => Return ["docs"];
     env_head_bucket := fun _ _ => Return tt;
     env_create_bucket := fun _ _ => Return tt;
     env_put_object := fun _ _ _ _ _ => Return tt;
     env_presign := fun _ _ k _ => Return ("https://signed/" +:+ k);
     env_exists := fun _ _ => Return true;
     env_is_dir := fun _ _ => Return true;
     env_glob := fun _ _ _ => Return [["a.docx"]; ["sub"; "dir"; "file.docx"]];
     env_read := fun _ _ => Return [] |}.

(** [head_bucket] is refused with 403, [create_bucket] is accepted. *)
Definition env_forbidden : Env :=
  {| env_client := fun _ _ => Return tt;
     env_list_buckets := fun _ => Return ["other"];
     env_head_bucket := fun _ _ => Raise (ClientError "403");
     env_create_bucket := fun _ _ => Return tt;
     env_put_object := fun _ _ _ _ _ => Return tt;
     env_presign := fun _ _ k _ => Return ("https://signed/" +:+ k);
     env_exists := fun _ _ => Return true;
     env_is_dir := fun _ _ => Return true;
     env_glob := fun _ _ _ => Return [["a.docx"]];
     env_read := fun _ _ => Return [] |}.

(** The bucket is missing (404) and can be created. *)
Definition env_missing : Env :=
  {| env_client := fun _ _ => Return tt;
     env_list_buckets := fun _ => Return ["other"];
     env_head_bucket := fun _ _ => Raise (ClientError "404");
     env_create_bucket := fun _ _ => Return tt;
     env_put_object := fun _ _ _ _ _ => Return tt;
     env_presign := fun _ _ k _ => Return ("https://signed/" +:+ k);
     env_exists := fun _ _ => Return true;
     env_is_dir := fun _ _ => Return true;
     env_glob := fun _ _ _ => Return [["a.docx"]];
     env_read := fun _ _ => Return [] |}.

(** No file can be read, and no url can be signed. *)
Definition env_unreadable : Env :=
  {| env_client := fun _ _ => Return tt;
     env_list_buckets := fun _ => Return ["docs"];
     env_head_bucket := fun _ _ => Return tt;
     env_create_bucket := fun _ _ => Return tt;
     env_put_object := fun _ _ _ _ _ => Return tt;
     env_presign := fun _ _ _ _ => Raise (OtherException "cannot sign");
     env_exists := fun _ _ => Return true;
     env_is_dir := fun _ _ => Return true;
     env_glob := fun _ _ _ => Return [["a.docx"]; ["b.docx"]];
     env_read := fun _ _ => Raise (IOError "Permission denied") |}.

(** The store cannot be reached at all. *)
Definition env_unreachable : Env :=
  {| env_client := fun _ _ => Return tt;
     env_list_buckets := fun _ => Raise (OtherException "EndpointConnectionError");
     env_head_bucket := fun _ _ => Raise (OtherException "EndpointConnectionError");
     env_create_bucket := fun _ _ => Raise (OtherException "EndpointConnectionError");
     env_put_object := fun _ _ _ _ _ => Raise (OtherException "EndpointConnectionError");
     env_presign := fun _ _ _ _ => Raise (OtherException "EndpointConnectionError");
     env_exists := fun _ _ => Return true;
     env_is_dir := fun _ _ => Return true;
     env_glob := fun _ _ _ => Return [["a.docx"]];
     env_read := fun _ _ => Return [] |}.

(** A POSIX folder with a file whose name holds a backslash, next to a
    file of the same spelling one directory down. *)
Definition env_backslash : Env :=
  {| env_client := fun _ _ => Return tt;
     env_list_buckets := fun _ => Return ["docs"];
     env_head_bucket := fun _ _ => Return tt;
     env_create_bucket := fun _ _ => Return tt;
     env_put_object := fun _ _ _ _ _ => Return tt;
     env_presign := fun _ _ k _ => Return ("https://signed/" +:+ k);
     env_exists := fun _ _ => Return true;
     env_is_dir := fun _ _ => Return true;
     env_glob := fun _ _ _ =>
       Return [["sub\dir.docx"]; ["sub"; "dir.docx"]];
     env_read := fun _ _ => Return [] |}.



Definition environ0 : Environ.environ :=
  <["HTTP_PROXY" := "http://proxy:3128"]>
    (<["no_proxy" := "localhost"]> (<["PATH" := "/usr/bin"]> ∅)).

End Sample.

(** ** The logger ([_setup_logger]) *)

Module Logging.

(** A [StreamHandler] with the format string of its formatter. *)
Record handler : Type := { formatter : string }.

(** The logger that [logging.getLogger("DocxS3Uploader")] answers with: one
    object for the whole process. *)
Record logger : Type := { level : Z; handlers : list handler }.

Definition INFO : Z := 20.

(** [logger.addHandler]: appends, unless the handler is already there. *)
Definition addHandler (hdlr : handler) (l : logger) : logger :=
  {| level := level l; handlers := handlers l ++ [hdlr] |}.

Definition setLevel (lvl : Z) (l : logger) : logger :=
  {| level := lvl; handlers := handlers l |}.

(** l.35-45, as the change it makes to the process-wide logger.  The
    handler is a new object on every call, so [addHandler] appends it. *)
Definition _setup_logger (l : logger) : logger :=
  let l := setLevel INFO l in
  let handler :=
    {| formatter := "%(asctime)s - %(name)s - %(levelname)s - %(message)s" |} in
  match handlers l with
  | [] => addHandler handler l
  | _ :: _ => l
  end.

End Logging.

(** ** The report of [main] (main.py, l.47-54) *)

Module Report.

(** [s.split(sep)] for a one-character [sep]; [cur] is the piece being
    read. *)
Fixpoint split_aux (sep : ascii) (s cur : string) : list string :=
  match s with
  | EmptyString => [cur]
  | String c s' =>
      if Ascii.eqb c sep then cur :: split_aux sep s' EmptyString
      else split_aux sep s' (cur +:+ String c EmptyString)
  end.

Definition split (sep : ascii) (s : string) : list string :=
  split_aux sep s EmptyString.

(** A row handed to [writer.writerow]: the file name and the link. *)
Definition csv_row : Type := string * string.

(** What the loop has printed and written so far. *)
Record report : Type := { printed : list string; rows : list csv_row }.

Definition empty_report : report := {| printed := []; rows := [] |}.

(** [if url:] is false for [None] and for the empty string. *)
Definition truthy (url : option string) : bool :=
  match url with
  | Some u => negb (String.eqb u "")
  | None => false
  end.

(** The output of [main]: what [print] on [sys.stdout] and
    [writer.writerow] on the utf-8 file raise, if anything, given what was
    put out so far ([UnicodeEncodeError] for a name that cannot be encoded,
    [OSError] from the stream). *)
Record output : Type := {
  print_error : report -> string -> option exn;
  writerow_error : report -> csv_row -> option exn
}.

(** [print(line)] *)
Definition print (out : output) (line : string) (acc : report)
  : report * option exn :=
  match print_error out acc line with
  | Some e => (acc, Some e)
  | None => ({| printed := printed acc ++ [line]; rows := rows acc |}, None)
  end.

(** [writer.writerow(row)] *)
Definition writerow (out : output) (row : csv_row) (acc : report)
  : report * option exn :=
  match writerow_error out acc row with
  | Some e => (acc, Some e)
  | None => ({| printed := printed acc; rows := rows acc ++ [row] |}, None)
  end.

(** One turn of the loop, l.48-54: what was put out, and the exception that
    ended the turn, if any ([IndexError] for [[-1]] on an empty list). *)
Definition report_entry (out : output) (acc : report)
    (entry : string * outcome) : report * option exn :=
  let '(file, (success, url)) := entry in
  match last (split slash file) with
  | None => (acc, Some (OtherException "IndexError"))
  | Some file =>
      let status := if success then "Успешно" else "Ошибка" in
      if truthy url then
        let url := default "" url in
        match print out (file +:+ ": " +:+ status +:+ " - Ссылка: " +:+ url)
                acc with
        | (acc', Some e) => (acc', Some e)
        | (acc', None) => writerow out (file, url) acc'
        end
      else print out (file +:+ ": не загружен") acc
  end.

(** The loop over [results.items()]; an exception ends it. *)
Fixpoint write_report (out : output) (items : list (string * outcome))
    (acc : report) : report * option exn :=
  match items with
  | [] => (acc, None)
  | entry :: rest =>
      match report_entry out acc entry with
      | (acc', Some e) => (acc', Some e)
      | (acc', None) => write_report out rest acc'
      end
  end.

(** The exception is one that [print] or [writerow] raised. *)
Definition raised_by_output (out : output) (e : exn) : Prop :=
  ∃ acc,
    (∃ line, print_error out acc line = Some e)
    ∨ (∃ row, writerow_error out acc row = Some e).

(** [print] and [writerow] never raise. *)
Definition output_accepts_all (out : output) : Prop :=
  (∀ acc line, print_error out acc line = None)
  ∧ (∀ acc row, writerow_error out acc row = None).

(** The row that the loop writes for an entry, if any. *)
Definition entry_row (entry : string * outcome) : option csv_row :=
  if truthy entry.2.2
  then Some (basename Posix entry.1, default "" entry.2.2)
  else None.

End Report.

(** ** Kinds of calls *)

Definition is_bucket_probe (ev : event) : bool :=
  match ev with
  | EvHeadBucket _ | EvCreateBucket _ => true
  | _ => false
  end.

Definition is_put_object (ev : event) : bool :=
  match ev with EvPutObject _ _ _ _ => true | _ => false end.

Definition is_read (ev : event) : bool :=
  match ev with EvRead _ => true | _ => false end.

Definition is_presign (ev : event) : bool :=
  match ev with EvPresign _ _ _ => true | _ => false end.

(** The calls that touch the files or the objects: reading a file, putting
    an object, signing a url. *)
Definition is_transfer (ev : event) : bool :=
  is_read ev || is_put_object ev || is_presign ev.

(** The calls that look at the folder. *)
Definition is_folder_access (ev : event) : bool :=
  match ev with
  | EvExists _ | EvIsDir _ | EvGlob _ _ => true
  | _ => false
  end.

(** The calls that list what is in a folder or say whether it is a
    directory. *)
Definition is_folder_scan (ev : event) : bool :=
  match ev with
  | EvIsDir _ | EvGlob _ _ => true
  | _ => false
  end.

(** Every [put_object] of the uploader [self] goes to its bucket, as a DOCX
    document, under a key without backslash. *)
Definition put_object_wellformed (self : Uploader) (ev : event) : Prop :=
  match ev with
  | EvPutObject bucket key _ content_type =>
      bucket = bucket_name self
      ∧ content_type = docx_content_type
      ∧ occurs backslash key = false
  | _ => True
  end.

(** The calls [upload_file] may make for one file and one key: opening its
    own client, reading that file, putting and signing that key in the
    bucket of the uploader. *)
Definition upload_file_call (self : Uploader) (file_path key : string)
    (ev : event) : Prop :=
  match ev with
  | EvClient s => s = self
  | EvRead p => p = file_path
  | EvPutObject bucket k _ content_type =>
      bucket = bucket_name self ∧ k = key ∧ content_type = docx_content_type
  | EvPresign bucket k expires_in =>
      bucket = bucket_name self ∧ k = key ∧ expires_in = 604800%Z
  | _ => False
  end.

(** The calls of the upload phase of a batch: clients of the uploader,
    reads, and puts and signatures in its bucket, as DOCX documents, under
    keys without backslash. *)
Definition upload_call (self : Uploader) (ev : event) : Prop :=
  match ev with
  | EvClient s => s = self
  | EvRead _ => True
  | EvPutObject bucket key _ content_type =>
      bucket = bucket_name self
      ∧ content_type = docx_content_type
      ∧ occurs backslash key = false
  | EvPresign bucket key expires_in =>
      bucket = bucket_name self
      ∧ occurs backslash key = false
      ∧ expires_in = 604800%Z
  | _ => False
  end.

(** l.236-246 of [upload_folder], read off the answers of the file system
    from the history [h] on: the result of the checks of the folder and the
    history they leave. *)
Definition folder_checks (fl : flavour) (folder : path) (env : Env)
    (h : history) : res (option (list path)) * history :=
  let p := path_str fl folder in
  match env_exists env h p with
  | Raise e => (Raise e, h ++ [EvExists p])
  | Return false => (Return None, h ++ [EvExists p])
  | Return true =>
      match env_is_dir env (h ++ [EvExists p]) p with
      | Raise e => (Raise e, h ++ [EvExists p; EvIsDir p])
      | Return false => (Return None, h ++ [EvExists p; EvIsDir p])
      | Return true =>
          match env_glob env (h ++ [EvExists p; EvIsDir p]) p
                  "**/*.docx" with
          | Raise e =>
              (Raise e, h ++ [EvExists p; EvIsDir p; EvGlob p "**/*.docx"])
          | Return found =>
              (Return match joinpath folder <$> found with
                      | [] => None
                      | docx_files => Some docx_files
                      end,
               h ++ [EvExists p; EvIsDir p; EvGlob p "**/*.docx"])
          end
      end
  end.

(** The files that the checks before the upload handed over, none when
    they stopped the run. *)
Definition discovered_files (found : res (option (list path))) : list path :=
  match found with
  | Return (Some docx_files) => docx_files
  | _ => []
  end.

(** [h'] is [h] followed by calls that all satisfy [P]. *)
Definition appended (P : event → Prop) (h h' : history) : Prop :=
  ∃ evs, h' = h ++ evs ∧ Forall P evs.

(** The number of calls in [h'] after [h] that [f] selects. *)
Definition calls_since (f : event → bool) (h h' : history) : nat :=
  length (List.filter f (drop (length h) h')).

(** A store and a file system whose answers to an upload do not depend on
    what was called before. *)
Definition history_independent (env : Env) : Prop :=
  (∀ h1 h2 self, env_client env h1 self = env_client env h2 self)
  ∧ (∀ h1 h2 p, env_read env h1 p = env_read env h2 p)
  ∧ (∀ h1 h2 bucket key body content_type,
       env_put_object env h1 bucket key body content_type
       = env_put_object env h2 bucket key body content_type)
  ∧ (∀ h1 h2 bucket key ttl,
       env_presign env h1 bucket key ttl = env_presign env h2 bucket key ttl).

(** More concrete stores and folders. *)
Module Scenario.

(** A terminal and a file that take every line and every row. *)
Definition output_ok : Report.output :=
  {| Report.print_error := fun _ _ => None;
     Report.writerow_error := fun _ _ => None |}.

(** The bucket is listed and every request is answered. *)
Definition env_listed : Env := Sample.env_ok.

(** The bucket is neither listed nor visible, and cannot be created. *)
Definition env_no_bucket : Env :=
  {| env_client := fun _ _ => Return tt;
     env_list_buckets := fun _ => Return ["other"];
     env_head_bucket := fun _ _ => Raise (ClientError "404");
     env_create_bucket := fun _ _ => Raise (ClientError "AccessDenied");
     env_put_object := fun _ _ _ _ _ => Return tt;
     env_presign := fun _ _ k _ => Return ("https://signed/" +:+ k);
     env_exists := fun _ _ => Return true;
     env_is_dir := fun _ _ => Return true;
     env_glob := fun _ _ _ => Return [["a.docx"]];
     env_read := fun _ _ => Return [] |}.

(** The folder is not there. *)
Definition env_no_folder : Env :=
  {| env_client := fun _ _ => Return tt;
     env_list_buckets := fun _ => Return ["docs"];
     env_head_bucket := fun _ _ => Return tt;
     env_create_bucket := fun _ _ => Return tt;
     env_put_object := fun _ _ _ _ _ => Return tt;
     env_presign := fun _ _ k _ => Return ("https://signed/" +:+ k);
     env_exists := fun _ _ => Return false;
     env_is_dir := fun _ _ => Return false;
     env_glob := fun _ _ _ => Return [];
     env_read := fun _ _ => Raise (IOError "No such file or directory") |}.

(** The folder holds no DOCX file. *)
Definition env_no_docx : Env :=
  {| env_client := fun _ _ => Return tt;
     env_list_buckets := fun _ => Return ["docs"];
     env_head_bucket := fun _ _ => Return tt;
     env_create_bucket := fun _ _ => Return tt;
     env_put_object := fun _ _ _ _ _ => Return tt;
     env_presign := fun _ _ k _ => Return ("https://signed/" +:+ k);
     env_exists := fun _ _ => Return true;
     env_is_dir := fun _ _ => Return true;
     env_glob := fun _ _ _ => Return [];
     env_read := fun _ _ => Return [] |}.

(** The store refuses every [put_object]. *)
Definition env_put_refused : Env :=
  {| env_client := fun _ _ => Return tt;
     env_list_buckets := fun _ => Return ["docs"];
     env_head_bucket := fun _ _ => Return tt;
     env_create_bucket := fun _ _ => Return tt;
     env_put_object := fun _ _ _ _ _ => Raise (ClientError "AccessDenied");
     env_presign := fun _ _ k _ => Return ("https://signed/" +:+ k);
     env_exists := fun _ _ => Return true;
     env_is_dir := fun _ _ => Return true;
     env_glob := fun _ _ _ => Return [["a.docx"]];
     env_read := fun _ _ => Return [] |}.

(** One file is unreadable, the other one is fine. *)
Definition env_one_unreadable : Env :=
  {| env_client := fun _ _ => Return tt;
     env_list_buckets := fun _ => Return ["docs"];
     env_head_bucket := fun _ _ => Return tt;
     env_create_bucket := fun _ _ => Return tt;
     env_put_object := fun _ _ _ _ _ => Return tt;
     env_presign := fun _ _ k _ => Return ("https://signed/" +:+ k);
     env_exists := fun _ _ => Return true;
     env_is_dir := fun _ _ => Return true;
     env_glob := fun _ _ _ => Return [["a.docx"]; ["b.docx"]];
     env_read := fun _ p =>
       if String.eqb p "templates/a.docx"
       then Raise (IOError "Permission denied") else Return [] |}.

End Scenario.

(** ** Properties *)

(** *** The environment sanitizer *)

Lemma clear_vars_deletes (vars : list string) (e : gmap string string) :
  Environ.clear_vars vars e = Some (foldl (fun acc var => delete var acc) e vars).
Proof.
  revert e. induction vars as [|var rest IH]; intros e; simpl; [done|].
  unfold Environ.del_item. case_bool_decide as Hin.
  - destruct Hin as [v Hv]. rewrite Hv. apply IH.
  - rewrite IH. f_equal. f_equal. symmetry. apply delete_id.
    by apply eq_None_not_Some.
Qed.

Lemma lookup_foldl_delete (vars : list string) (e : gmap string string) (k : string) :
  foldl (fun acc var => delete var acc) e vars !! k
  = if bool_decide (k ∈ vars) then None else e !! k.
Proof.
  revert e. induction vars as [|var rest IH]; intros e; cbn [foldl].
  - rewrite bool_decide_eq_false_2; [done | apply not_elem_of_nil].
  - rewrite IH. destruct (decide (k = var)) as [->|Hne].
    + rewrite lookup_delete_eq. rewrite (bool_decide_eq_true_2 (var ∈ var :: rest)).
      * by case_bool_decide.
      * apply list_elem_of_here.
    + rewrite lookup_delete_ne by done.
      destruct (decide (k ∈ rest)) as [Hin|Hnin].
      * rewrite !bool_decide_eq_true_2; [done | by apply list_elem_of_further | done].
      * rewrite !bool_decide_eq_false_2; [done | | done].
        intros [?|?]%elem_of_cons; done.
Qed.

(** C9: [clear_proxy_environment] never fails; afterwards the six proxy
    variables are absent and every other variable has the value it had;
    running it again changes nothing. *)
Theorem clear_proxy_environment_frame (e : gmap string string) :
  Environ.proxy_vars
    = ["HTTP_PROXY"; "http_proxy"; "HTTPS_PROXY"; "https_proxy";
       "NO_PROXY"; "no_proxy"]
  ∧ ∃ e' msg,
      Environ.clear_proxy_environment e = Some (e', msg)
      ∧ (∀ k, e' !! k
              = if bool_decide (k ∈ Environ.proxy_vars) then None else e !! k)
      ∧ dom e' = dom e ∖ list_to_set Environ.proxy_vars
      ∧ Environ.clear_proxy_environment e' = Some (e', msg).
Proof.
  split; [done|].
  unfold Environ.clear_proxy_environment.
  rewrite clear_vars_deletes.
  set (e' := foldl _ e Environ.proxy_vars).
  assert (Hl : ∀ k, e' !! k
     = if bool_decide (k ∈ Environ.proxy_vars) then None else e !! k)
    by (intros k; apply lookup_foldl_delete).
  eexists e', _. split; [done|]. split; [done|]. split.
  - apply set_eq. intros k. rewrite elem_of_difference, !elem_of_dom, Hl.
    rewrite elem_of_list_to_set.
    case_bool_decide as Hk.
    + split; [intros [x Hx]; discriminate | intros [_ Hn]; contradiction].
    + split; [intros Hs; by split | by intros [Hs _]].
  - rewrite clear_vars_deletes. do 2 f_equal.
    apply map_eq. intros k. rewrite lookup_foldl_delete, Hl.
    by case_bool_decide.
Qed.

(** *** Running a method *)

Ltac unfold_calls :=
  unfold s3_client, s3_list_buckets, s3_head_bucket, s3_create_bucket,
    s3_put_object, s3_generate_presigned_url, fs_exists, fs_is_dir, fs_glob,
    fs_read, call.

Ltac unfold_monad :=
  unfold try_except, bind, ret, raise, settle.

Ltac norm_history := rewrite <- ?app_assoc; cbn [app].

Ltac run_method := unfold_calls; unfold_monad; cbn beta iota; norm_history.

Lemma create_bucket_calls_app (h1 h2 : history) :
  create_bucket_calls (h1 ++ h2)
  = create_bucket_calls h1 + create_bucket_calls h2.
Proof.
  unfold create_bucket_calls. by rewrite List.filter_app, length_app.
Qed.

(** *** The URL resolver *)

Lemma get_file_url_run (self : Uploader) (object_key : string) (env : Env)
    (h : history) :
  get_file_url self object_key env h
  = match env_client env h self with
    | Return _ =>
        match env_presign env (h ++ [EvClient self]) (bucket_name self)
                object_key 604800 with
        | Return presigned_url =>
            (Return presigned_url,
             h ++ [EvClient self; EvPresign (bucket_name self) object_key 604800])
        | Raise _ =>
            (Return (endpoint_url self +:+ "/" +:+ bucket_name self
                     +:+ "/" +:+ object_key),
             h ++ [EvClient self; EvPresign (bucket_name self) object_key 604800])
        end
    | Raise _ =>
        (Return (endpoint_url self +:+ "/" +:+ bucket_name self
                 +:+ "/" +:+ object_key),
         h ++ [EvClient self])
    end.
Proof.
  unfold get_file_url. run_method.
  destruct (env_client env h self) as [[]|e]; [|done].
  by destruct (env_presign _ _ _ _ _).
Qed.



(** *** The bucket readiness resolver *)

Lemma check_bucket_exists_run (self : Uploader) (env : Env) (h : history) :
  check_bucket_exists self env h
  = match env_client env h self with
    | Return _ =>
        (Return (negb (is_raise (env_head_bucket env (h ++ [EvClient self])
                                   (bucket_name self)))),
         h ++ [EvClient self; EvHeadBucket (bucket_name self)])
    | Raise _ => (Return false, h ++ [EvClient self])
    end.
Proof.
  unfold check_bucket_exists. run_method.
  destruct (env_client env h self) as [[]|e]; [|by destruct e].
  destruct (env_head_bucket _ _ _) as [[]|e]; [done|by destruct e].
Qed.

(** C2 (amended): [create_bucket_if_not_exists] skips the creation only when
    [head_bucket] succeeds.  When [head_bucket] faults, with code 404, with
    code 403 or with anything else, it goes on to the creation: once the
    client is open it calls [create_bucket] exactly once, and returns [True]
    when that call succeeds and [False] when it faults. *)
Theorem create_bucket_if_not_exists_any_fault (self : Uploader) (env : Env)
    (h : history) :
  env_client env h self = Return tt →
  (env_head_bucket env (h ++ [EvClient self]) (bucket_name self) = Return tt →
   create_bucket_if_not_exists self env h
   = (Return true, h ++ [EvClient self; EvHeadBucket (bucket_name self)]))
  ∧ (∀ e,
       env_head_bucket env (h ++ [EvClient self]) (bucket_name self) = Raise e →
       env_client env (h ++ [EvClient self; EvHeadBucket (bucket_name self)])
         self = Return tt →
       ∃ h',
         create_bucket_if_not_exists self env h
         = (Return (negb (is_raise
                      (env_create_bucket env
                         (h ++ [EvClient self; EvHeadBucket (bucket_name self);
                                EvClient self])
                         (bucket_name self)))), h')
         ∧ h' = h ++ [EvClient self; EvHeadBucket (bucket_name self);
                      EvClient self; EvCreateBucket (bucket_name self)]
         ∧ create_bucket_calls h' = create_bucket_calls h + 1).
Proof.
  intros Hc. unfold create_bucket_if_not_exists. split.
  - intros Hh. unfold bind at 1.
    by rewrite check_bucket_exists_run, Hc, Hh.
  - intros e Hh Hc2. unfold bind at 1.
    rewrite check_bucket_exists_run, Hc, Hh. cbn [is_raise negb].
    run_method. rewrite Hc2.
    eexists. split; [|split; [reflexivity|]].
    + destruct (env_create_bucket _ _ _) as [[]|e']; [done|by destruct e'].
    + by rewrite create_bucket_calls_app.
Qed.

Lemma create_bucket_if_not_exists_any_fault_witness :
  ∃ h',
    create_bucket_if_not_exists Sample.uploader Sample.env_missing []
    = (Return true, h')
    ∧ create_bucket_calls h' = 1.
Proof.
  destruct (create_bucket_if_not_exists_any_fault
              Sample.uploader Sample.env_missing [] eq_refl) as [_ Hfault].
  destruct (Hfault (ClientError "404") eq_refl eq_refl)
    as (h' & Hrun & _ & Hcalls).
  exists h'. split; [exact Hrun | exact Hcalls].
Defined.

(** C2, as stated, fails: with [head_bucket] refused by a 403,
    [create_bucket_if_not_exists] does call [create_bucket], and returns
    [True] when the creation is accepted. *)
Lemma create_bucket_on_forbidden :
  env_head_bucket Sample.env_forbidden [EvClient Sample.uploader] "docs"
  = Raise (ClientError "403")
  ∧ create_bucket_if_not_exists Sample.uploader Sample.env_forbidden []
    = (Return true,
       [EvClient Sample.uploader; EvHeadBucket "docs"; EvClient Sample.uploader; EvCreateBucket "docs"])
  ∧ create_bucket_calls
      (snd (create_bucket_if_not_exists Sample.uploader
              Sample.env_forbidden [])) = 1.
Proof. repeat split. Qed.

(** *** One upload *)

Lemma upload_file_run (fl : flavour) (self : Uploader) (file_path : string)
    (object_name : option string) (env : Env) (h : history) :
  let key := default (basename fl file_path) object_name in
  upload_file fl self file_path object_name env h
  = match env_client env h self with
    | Raise _ => (Return (false, None), h ++ [EvClient self])
    | Return _ =>
        match env_read env (h ++ [EvClient self]) file_path with
        | Raise _ => (Return (false, None), h ++ [EvClient self; EvRead file_path])
        | Return content =>
            let h2 := h ++ [EvClient self; EvRead file_path;
                            EvPutObject (bucket_name self) key content
                              docx_content_type] in
            match env_put_object env (h ++ [EvClient self; EvRead file_path])
                    (bucket_name self) key content docx_content_type with
            | Raise _ => (Return (false, None), h2)
            | Return _ =>
                match get_file_url self key env h2 with
                | (Return file_url, h3) => (Return (true, Some file_url), h3)
                | (Raise _, h3) => (Return (false, None), h3)
                end
            end
        end
    end.
Proof.
  intros key. unfold upload_file.
  replace (match object_name with
           | Some name => name
           | None => basename fl file_path
           end) with key by (by destruct object_name).
  run_method. cbn zeta.
  destruct (env_client env h self) as [[]|e]; [|by destruct e].
  destruct (env_read _ _ _) as [content|e]; norm_history; [|by destruct e].
  destruct (env_put_object _ _ _ _ _ _) as [[]|e]; norm_history;
    [|by destruct e].
  destruct (get_file_url _ _ _ _) as [[u|e] h3]; [done|by destruct e].
Qed.

(** C3, as stated, fails: the [IOError] of an unreadable file does not leave
    [upload_file]; the call returns the failure outcome. *)
Lemma upload_file_unreadable_returns :
  env_read Sample.env_unreadable [EvClient Sample.uploader] "templates/a.docx"
  = Raise (IOError "Permission denied")
  ∧ fst (upload_file Posix Sample.uploader "templates/a.docx" (Some "a.docx")
           Sample.env_unreadable [])
    = Return (false, None)
  ∧ is_raise (fst (upload_file Posix Sample.uploader "templates/a.docx"
                     (Some "a.docx") Sample.env_unreadable [])) = false.
Proof. repeat split. Qed.

(** *** Paths and object keys *)

Lemma strip_names_app (pre rel : list string) :
  strip_names pre (pre ++ rel) = Some rel.
Proof.
  induction pre as [|a pre IH]; simpl; [by destruct rel|].
  by rewrite String.eqb_refl.
Qed.

Lemma relative_to_joinpath (folder : path) (rel : list string) :
  relative_to (joinpath folder rel) folder
  = Return {| anchor := ""; names := rel |}.
Proof.
  unfold relative_to, joinpath. simpl.
  by rewrite String.eqb_refl, strip_names_app.
Qed.

Lemma object_name_of_joinpath (fl : flavour) (folder : path)
    (prefix : string) (rel : list string) :
  object_name_of fl folder prefix (joinpath folder rel)
  = Return (replace_char backslash slash
              (prefix +:+ path_str fl {| anchor := ""; names := rel |})).
Proof.
  unfold object_name_of. rewrite relative_to_joinpath.
  destruct (String.eqb_spec prefix "") as [->|_]; done.
Qed.

Lemma make_tasks_joinpath (fl : flavour)
    (task : string → option string → M outcome) (folder : path)
    (prefix : string) (rels : list (list string)) :
  make_tasks fl task folder prefix (joinpath folder <$> rels)
  = Return ((λ rel,
               task (path_str fl (joinpath folder rel))
                 (Some (replace_char backslash slash
                          (prefix +:+ path_str fl
                                        {| anchor := ""; names := rel |}))))
              <$> rels).
Proof.
  induction rels as [|rel rels IH]; [done|].
  cbn [fmap list_fmap make_tasks]. rewrite object_name_of_joinpath.
  cbn [fmap] in IH. by rewrite IH.
Qed.

Lemma replace_char_app (old new : ascii) (s1 s2 : string) :
  replace_char old new (s1 +:+ s2)
  = replace_char old new s1 +:+ replace_char old new s2.
Proof. induction s1 as [|c s1 IH]; simpl; [done|by rewrite IH]. Qed.

(** No [old] is left after [replace_char old new], when [new] is another
    character. *)
Lemma replace_char_removes (old new : ascii) (s : string) :
  new ≠ old → occurs old (replace_char old new s) = false.
Proof.
  intros Hne. induction s as [|c s IH]; simpl; [done|].
  rewrite IH, orb_false_r.
  destruct (Ascii.eqb_spec c old) as [->|Hc].
  - by apply Ascii.eqb_neq.
  - by apply Ascii.eqb_neq.
Qed.

(** *** The batch *)

Lemma list_buckets_run (self : Uploader) (env : Env) (h : history) :
  list_buckets self env h
  = match env_client env h self with
    | Raise _ => (Return [], h ++ [EvClient self])
    | Return _ =>
        (Return match env_list_buckets env (h ++ [EvClient self]) with
                | Return buckets => buckets
                | Raise _ => []
                end,
         h ++ [EvClient self; EvListBuckets])
    end.
Proof.
  unfold list_buckets. run_method.
  destruct (env_client env h self) as [[]|e]; [|done].
  by destruct (env_list_buckets _ _).
Qed.

Lemma upload_file_returns (fl : flavour) (self : Uploader)
    (file_path : string) (object_name : option string) (env : Env)
    (h : history) :
  ∃ o h', upload_file fl self file_path object_name env h = (Return o, h').
Proof.
  rewrite upload_file_run. cbn zeta.
  destruct (env_client env h self) as [[]|e]; [|by eauto].
  destruct (env_read _ _ _) as [content|e]; [|by eauto].
  destruct (env_put_object _ _ _ _ _ _) as [[]|e]; [|by eauto].
  destruct (get_file_url _ _ _ _) as [[u|e] h3]; by eauto.
Qed.

Lemma create_bucket_if_not_exists_returns (self : Uploader) (env : Env)
    (h : history) :
  ∃ b h', create_bucket_if_not_exists self env h = (Return b, h').
Proof.
  unfold create_bucket_if_not_exists. unfold bind at 1.
  rewrite check_bucket_exists_run.
  destruct (env_client env h self) as [[]|e].
  - destruct (negb _); [by eauto|]. run_method.
    destruct (env_client env _ _) as [[]|e]; [|destruct e; by eauto].
    destruct (env_create_bucket _ _ _) as [[]|e]; [by eauto|].
    destruct e; by eauto.
  - run_method.
    destruct (env_client env _ _) as [[]|e']; [|destruct e'; by eauto].
    destruct (env_create_bucket _ _ _) as [[]|e']; [by eauto|].
    destruct e'; by eauto.
Qed.

(** [find_docx_files] is the listing of the buckets, then the look at the
    bucket when it is not listed, then the checks of the folder. *)
Lemma find_docx_files_steps (fl : flavour) (self : Uploader) (folder : path)
    (env : Env) (h : history) :
  ∃ buckets h1 ready h2,
    list_buckets self env h = (Return buckets, h1)
    ∧ (if bool_decide (bucket_name self ∈ buckets) then ret true
       else create_bucket_if_not_exists self) env h1 = (Return ready, h2)
    ∧ find_docx_files fl self folder env h
      = match buckets with
        | [] => (Return None, h1)
        | _ :: _ =>
            if ready then folder_checks fl folder env h2
            else (Return None, h2)
        end.
Proof.
  assert (∃ buckets h1, list_buckets self env h = (Return buckets, h1))
    as (buckets & h1 & Hlb).
  { rewrite list_buckets_run.
    destruct (env_client env h self) as [[]|?]; by eauto. }
  exists buckets, h1.
  assert (∃ ready h2,
    (if bool_decide (bucket_name self ∈ buckets) then ret true
     else create_bucket_if_not_exists self) env h1
    = (Return ready, h2)) as (ready & h2 & Hready).
  { case_bool_decide; [by unfold ret; eauto|].
    apply create_bucket_if_not_exists_returns. }
  exists ready, h2. split; [done|]. split; [done|].
  unfold find_docx_files. unfold bind at 1. rewrite Hlb.
  destruct buckets as [|b buckets]; [done|].
  unfold bind at 1. rewrite Hready.
  destruct ready; cbn [negb]; [|done].
  unfold folder_checks. unfold_calls. unfold_monad. cbn beta iota zeta.
  destruct (env_exists env h2 _) as [[|]|e]; cbn [negb orb]; [|done|done].
  norm_history.
  destruct (env_is_dir env _ _) as [[|]|e]; cbn [negb]; norm_history;
    [|done|done].
  destruct (env_glob env _ _ _) as [found|e]; norm_history; [|done].
  change (map (joinpath folder) found) with (joinpath folder <$> found).
  by destruct (joinpath folder <$> found).
Qed.

Lemma folder_checks_found (fl : flavour) (folder : path) (env : Env)
    (h h' : history) (docx_files : list path) :
  folder_checks fl folder env h = (Return (Some docx_files), h') →
  docx_files ≠ [] ∧ ∃ rels, docx_files = joinpath folder <$> rels.
Proof.
  unfold folder_checks. cbn zeta.
  destruct (env_exists env h _) as [[|]|e]; [|done|done].
  destruct (env_is_dir env _ _) as [[|]|e]; [|done|done].
  destruct (env_glob env _ _ _) as [found|e]; [|done].
  destruct (joinpath folder <$> found) as [|f fs] eqn:Hfound; [done|].
  intros [= <- _]. split; [done|]. by exists found.
Qed.


(** What the checks before the upload hand over is the non-empty list of
    the matches of the glob, each below the folder. *)
Lemma find_docx_files_found (fl : flavour) (self : Uploader) (folder : path)
    (env : Env) (h h' : history) (docx_files : list path) :
  find_docx_files fl self folder env h = (Return (Some docx_files), h') →
  docx_files ≠ [] ∧ ∃ rels, docx_files = joinpath folder <$> rels.
Proof.
  destruct (find_docx_files_steps fl self folder env h)
    as (buckets & h1 & ready & h2 & _ & _ & ->).
  destruct buckets as [|b buckets]; [done|].
  destruct ready; [|done]. apply folder_checks_found.
Qed.


Lemma folder_checks_returns (fl : flavour) (folder : path) (env : Env)
    (h : history) :
  folder_checks_answer env →
  ∃ found h', folder_checks fl folder env h = (Return found, h').
Proof.
  intros (He & Hd & Hg). unfold folder_checks. cbn zeta.
  set (p := path_str fl folder).
  specialize (He h p). destruct (env_exists env h p) as [[|]|e]; [|by eauto|done].
  specialize (Hd (h ++ [EvExists p]) p).
  destruct (env_is_dir env _ p) as [[|]|e]; [|by eauto|done].
  specialize (Hg (h ++ [EvExists p; EvIsDir p]) p "**/*.docx").
  destruct (env_glob env _ p _) as [found|e]; [by eauto|done].
Qed.

Lemma find_docx_files_returns (fl : flavour) (self : Uploader) (folder : path)
    (env : Env) (h : history) :
  folder_checks_answer env →
  ∃ found h', find_docx_files fl self folder env h = (Return found, h').
Proof.
  intros Hanswer.
  destruct (find_docx_files_steps fl self folder env h)
    as (buckets & h1 & ready & h2 & _ & _ & ->).
  destruct buckets as [|b buckets]; [by eauto|].
  destruct ready; [|by eauto]. by apply folder_checks_returns.
Qed.

Lemma gather_returns {A} (tasks : list (M A)) (env : Env) (h : history) :
  ∃ results h',
    gather tasks env h = (Return results, h')
    ∧ length results = length tasks.
Proof.
  revert h. induction tasks as [|task rest IH]; intros h.
  - by exists [], h.
  - cbn [gather]. unfold_monad.
    destruct (task env h) as [r h1].
    destruct (IH h1) as (rs & h' & -> & Hlen).
    exists (r :: rs), h'. split; [done|]. cbn. by rewrite Hlen.
Qed.

(** A property of what every task returns holds of every gathered result. *)
Lemma gather_Forall {A} (P : res A → Prop) (tasks : list (M A)) (env : Env)
    (h h' : history) (results : list (res A)) :
  Forall (λ task : M A, ∀ h0, P (fst (task env h0))) tasks →
  gather tasks env h = (Return results, h') →
  Forall P results.
Proof.
  intros Htasks. revert h results.
  induction Htasks as [|task rest Htask _ IH]; intros h results.
  - intros [= <- _]. constructor.
  - cbn [gather]. unfold_monad.
    specialize (Htask h). destruct (task env h) as [r h1].
    destruct (gather rest env h1) as [[rs|e] h2] eqn:Hrest; [|done].
    intros [= <- <-]. constructor; [done|]. by eapply IH.
Qed.

Lemma gather_lookup {A} (tasks : list (M A)) (env : Env) (h h' : history)
    (results : list (res A)) (i : nat) (task : M A) :
  gather tasks env h = (Return results, h') →
  tasks !! i = Some task →
  ∃ hi, results !! i = Some (task env hi).1.
Proof.
  revert h results i.
  induction tasks as [|t tasks IH]; intros h results i Hg Hi; [done|].
  cbn [gather] in Hg. unfold bind, settle, ret in Hg.
  destruct (t env h) as [r h1] eqn:Ht.
  destruct (gather tasks env h1) as [[rs|e] h2] eqn:Hrest; [|done].
  injection Hg as <- <-. destruct i as [|i].
  - injection Hi as <-. exists h. by rewrite Ht.
  - cbn in Hi. cbn. eapply IH; [exact Hrest | exact Hi].
Qed.

Lemma record_result_insert (fl : flavour) (acc : gmap string outcome)
    (file_path : path) (result : res outcome) :
  record_result fl acc (file_path, result)
  = <[path_str fl file_path := stored_outcome result]> acc.
Proof. by destruct result as [[success url]|e]. Qed.

Lemma dom_foldl_record (fl : flavour) (files : list path)
    (results : list (res outcome)) (acc : gmap string outcome) :
  length results = length files →
  dom (foldl (record_result fl) acc (zip files results))
  = dom acc ∪ list_to_set (path_str fl <$> files).
Proof.
  revert results acc.
  induction files as [|f files IH]; intros [|r results] acc Hlen;
    try discriminate.
  - cbn. by rewrite union_empty_r_L.
  - cbn [zip zip_with foldl]. rewrite IH by (by injection Hlen).
    rewrite record_result_insert, dom_insert_L. cbn.
    by rewrite (union_comm_L {[path_str fl f]} (dom acc)), (assoc_L (∪)).
Qed.

Lemma lookup_foldl_record_other (fl : flavour) (files : list path)
    (results : list (res outcome)) (acc : gmap string outcome) (k : string) :
  k ∉ path_str fl <$> files →
  foldl (record_result fl) acc (zip files results) !! k = acc !! k.
Proof.
  revert results acc.
  induction files as [|f files IH]; intros [|r results] acc Hk; try done.
  cbn [zip zip_with foldl]. cbn in Hk. apply not_elem_of_cons in Hk as [Hne Hk].
  rewrite IH by done. rewrite record_result_insert.
  by rewrite lookup_insert_ne.
Qed.

Lemma lookup_foldl_record (fl : flavour) (files : list path)
    (results : list (res outcome)) (acc : gmap string outcome) (i : nat)
    (f : path) (r : res outcome) :
  NoDup (path_str fl <$> files) →
  files !! i = Some f →
  results !! i = Some r →
  foldl (record_result fl) acc (zip files results) !! path_str fl f
  = Some (stored_outcome r).
Proof.
  revert results acc i.
  induction files as [|f0 files IH]; intros [|r0 results] acc i Hnd Hf Hr;
    try done.
  cbn in Hnd. apply NoDup_cons in Hnd as [Hnotin Hnd].
  cbn [zip zip_with foldl]. destruct i as [|i].
  - injection Hf as ->. injection Hr as ->.
    rewrite lookup_foldl_record_other by done.
    by rewrite record_result_insert, lookup_insert_eq.
  - by eapply IH.
Qed.

Lemma foldl_record_values (fl : flavour) (P : outcome → Prop)
    (files : list path) (results : list (res outcome))
    (acc : gmap string outcome) :
  (∀ k o, acc !! k = Some o → P o) →
  Forall (λ r, P (stored_outcome r)) results →
  ∀ k o, foldl (record_result fl) acc (zip files results) !! k = Some o → P o.
Proof.
  revert results acc.
  induction files as [|f files IH]; intros [|r results] acc Hacc Hres;
    try done.
  cbn [zip zip_with foldl]. apply Forall_cons in Hres as [Hr Hres].
  apply IH; [|done]. intros k o. rewrite record_result_insert.
  destruct (decide (path_str fl f = k)) as [->|Hne].
  - rewrite lookup_insert_eq. by intros [= <-].
  - rewrite lookup_insert_ne by done. apply Hacc.
Qed.

(** The run of [upload_folder], phase by phase. *)
Lemma upload_folder_with_run (fl : flavour) (self : Uploader)
    (task : string → option string → M outcome) (folder : path)
    (prefix : string) (env : Env) (h : history) :
  ∃ found h1,
    find_docx_files fl self folder env h = (found, h1)
    ∧ match found with
      | Raise e =>
          upload_folder_with fl self task folder prefix env h = (Raise e, h1)
      | Return None =>
          upload_folder_with fl self task folder prefix env h = (Return ∅, h1)
      | Return (Some docx_files) =>
          ∃ tasks results h2,
            make_tasks fl task folder prefix docx_files = Return tasks
            ∧ gather tasks env h1 = (Return results, h2)
            ∧ length results = length docx_files
            ∧ upload_folder_with fl self task folder prefix env h
              = (Return (collect_results fl docx_files results), h2)
      end.
Proof.
  destruct (find_docx_files fl self folder env h) as [found h1] eqn:Hfind.
  exists found, h1. split; [done|].
  destruct found as [[docx_files|]|e];
    unfold upload_folder_with; unfold bind at 1; rewrite Hfind; [|done|done].
  destruct (find_docx_files_found fl self folder env h _ _ Hfind)
    as (_ & rels & ->).
  rewrite make_tasks_joinpath.
  set (tasks := _ <$> rels).
  destruct (gather_returns tasks env h1) as (results & h2 & Hg & Hlen).
  exists tasks, results, h2. split; [done|]. split; [done|].
  split; [by rewrite Hlen; unfold tasks; rewrite !length_fmap|].
  unfold_monad. by rewrite Hg.
Qed.

(** C1: in a run that reaches the upload, with any [upload_file] at all (one
    that fails or raises included), the keys of the returned mapping are
    exactly the path strings of the discovered files; the discovered paths
    being distinct, the mapping has as many entries as there are files. *)
Theorem upload_folder_one_entry_per_file (fl : flavour) (self : Uploader)
    (task : string → option string → M outcome) (folder : path)
    (prefix : string) (env : Env) (h h1 : history) (docx_files : list path) :
  find_docx_files fl self folder env h = (Return (Some docx_files), h1) →
  ∃ upload_results h2,
    upload_folder_with fl self task folder prefix env h
    = (Return upload_results, h2)
    ∧ dom upload_results = list_to_set (path_str fl <$> docx_files)
    ∧ (∀ file_path, file_path ∈ docx_files →
         is_Some (upload_results !! path_str fl file_path))
    ∧ (NoDup (path_str fl <$> docx_files) →
       size upload_results = length docx_files).
Proof.
  intros Hfind.
  destruct (upload_folder_with_run fl self task folder prefix env h)
    as (found & h1' & Hfind' & Hrun).
  rewrite Hfind in Hfind'. injection Hfind' as <- <-.
  destruct Hrun as (tasks & results & h2 & _ & _ & Hlen & Hrun).
  exists (collect_results fl docx_files results), h2.
  assert (Hdom : dom (collect_results fl docx_files results)
                 = list_to_set (path_str fl <$> docx_files)).
  { unfold collect_results. rewrite dom_foldl_record by done.
    rewrite dom_empty_L. apply union_empty_l_L. }
  split; [done|]. split; [done|]. split.
  - intros f Hf. apply elem_of_dom. rewrite Hdom.
    apply elem_of_list_to_set. by apply list_elem_of_fmap_2.
  - intros Hnd. rewrite <- size_dom, Hdom, size_list_to_set by done.
    apply length_fmap.
Qed.

Lemma upload_folder_one_entry_per_file_witness :
  ∃ upload_results h2,
    upload_folder Posix Sample.uploader Sample.templates "out/"
      Sample.env_unreadable [] = (Return upload_results, h2)
    ∧ dom upload_results
      = list_to_set ["templates/a.docx"; "templates/b.docx"]
    ∧ size upload_results = 2.
Proof.
  destruct (upload_folder_one_entry_per_file Posix Sample.uploader
              (upload_file Posix Sample.uploader) Sample.templates "out/"
              Sample.env_unreadable []
              [EvClient Sample.uploader; EvListBuckets;
               EvExists "templates"; EvIsDir "templates";
               EvGlob "templates" "**/*.docx"]
              [joinpath Sample.templates ["a.docx"];
               joinpath Sample.templates ["b.docx"]] eq_refl)
    as (m & h2 & Hrun & Hdom & _ & Hsize).
  exists m, h2. split; [exact Hrun|]. split.
  - exact Hdom.
  - apply Hsize. by apply (bool_decide_unpack _).
Defined.

Lemma foldl_record_key (fl : flavour) (P : outcome → Prop)
    (files : list path) (results : list (res outcome))
    (acc : gmap string outcome) (k : string) :
  (∀ o, acc !! k = Some o → P o) →
  (∀ i f r, files !! i = Some f → results !! i = Some r →
            path_str fl f = k → P (stored_outcome r)) →
  ∀ o, foldl (record_result fl) acc (zip files results) !! k = Some o → P o.
Proof.
  revert results acc.
  induction files as [|f files IH]; intros [|r results] acc Hacc Hres;
    try done.
  cbn [zip zip_with foldl]. apply IH.
  - intros o. rewrite record_result_insert.
    destruct (decide (path_str fl f = k)) as [Heq|Hne].
    + rewrite Heq, lookup_insert_eq. intros [= <-]. by apply (Hres 0 f r).
    + rewrite lookup_insert_ne by done. apply Hacc.
  - intros i f' r' Hf Hr. by apply (Hres (S i)).
Qed.


Lemma upload_file_unreadable (fl : flavour) (self : Uploader)
    (file_path : string) (object_name : option string) (env : Env)
    (h : history) :
  (∀ h0, is_raise (env_read env h0 file_path) = true) →
  (upload_file fl self file_path object_name env h).1 = Return (false, None).
Proof.
  intros Hread. rewrite upload_file_run. cbn zeta.
  destruct (env_client env h self) as [[]|e]; [|done].
  specialize (Hread (h ++ [EvClient self])).
  by destruct (env_read _ _ _).
Qed.




(** C3 (amended): when the local file cannot be read, the error is caught
    inside [upload_file]: it returns [(False, None)] to its caller, raises
    nothing and does not call [put_object]; [upload_folder] stores that
    outcome as the entry of the file. *)
Theorem upload_file_catches_read_error (fl : flavour) (self : Uploader) :
  (∀ file_path object_name env h e,
     env_client env h self = Return tt →
     env_read env (h ++ [EvClient self]) file_path = Raise e →
     upload_file fl self file_path object_name env h
     = (Return (false, None), h ++ [EvClient self; EvRead file_path]))
  ∧ (∀ folder prefix env h docx_files h1 file_path,
       find_docx_files fl self folder env h = (Return (Some docx_files), h1) →
       file_path ∈ docx_files →
       (∀ h0, is_raise (env_read env h0 (path_str fl file_path)) = true) →
       ∃ upload_results h',
         upload_folder fl self folder prefix env h
         = (Return upload_results, h')
         ∧ upload_results !! path_str fl file_path = Some (false, None)).
Proof.
  split.
  - intros file_path object_name env h e Hc Hr.
    rewrite upload_file_run. cbn zeta. by rewrite Hc, Hr.
  - intros folder prefix env h docx_files h1 file_path Hfind Hin Hread.
    unfold upload_folder.
    destruct (upload_folder_with_run fl self (upload_file fl self) folder
                prefix env h) as (found & h1' & Hfind' & Hrun).
    rewrite Hfind in Hfind'. injection Hfind' as <- <-.
    destruct Hrun as (tasks & results & h2 & Htasks & Hg & Hlen & Hrun).
    exists (collect_results fl docx_files results), h2. split; [done|].
    assert (Hdom : path_str fl file_path
                   ∈ dom (collect_results fl docx_files results)).
    { unfold collect_results.
      rewrite dom_foldl_record by done. rewrite dom_empty_L, union_empty_l_L.
      apply elem_of_list_to_set. by apply list_elem_of_fmap_2. }
    apply elem_of_dom in Hdom as [o Ho].
    etrans; [exact Ho|]. f_equal.
    revert o Ho. unfold collect_results.
    apply (foldl_record_key fl (λ o, o = (false, None))).
    { intros o Ho. by rewrite lookup_empty in Ho. }
    intros i f r Hf Hr Hkey.
    destruct (find_docx_files_found fl self folder env h _ _ Hfind)
      as (_ & rels & ->).
    rewrite make_tasks_joinpath in Htasks. injection Htasks as <-.
    rewrite list_lookup_fmap in Hf.
    destruct (rels !! i) as [rel|] eqn:Hrel; [|done].
    cbn in Hf. injection Hf as <-.
    destruct (λ t Ht, gather_lookup _ env h1 h2 results i t Hg Ht)
      with (t := upload_file fl self (path_str fl (joinpath folder rel))
                   (Some (replace_char backslash slash
                            (prefix +:+ path_str fl
                               {| anchor := ""; names := rel |}))))
      as [hi Hres]; [by rewrite list_lookup_fmap, Hrel|].
    rewrite Hr in Hres. injection Hres as ->.
    rewrite upload_file_unreadable; [done|]. by rewrite Hkey.
Qed.

Lemma upload_file_catches_read_error_witness :
  upload_file Posix Sample.uploader "templates/a.docx" (Some "a.docx")
    Sample.env_unreadable []
  = (Return (false, None),
     [EvClient Sample.uploader; EvRead "templates/a.docx"])
  ∧ ∃ upload_results h',
      upload_folder Posix Sample.uploader Sample.templates ""
        Sample.env_unreadable [] = (Return upload_results, h')
      ∧ upload_results !! "templates/a.docx" = Some (false, None).
Proof.
  destruct (upload_file_catches_read_error Posix Sample.uploader)
    as [Hfile Hfolder].
  split.
  - apply (Hfile "templates/a.docx" (Some "a.docx") Sample.env_unreadable []
             (IOError "Permission denied")); reflexivity.
  - apply (Hfolder Sample.templates "" Sample.env_unreadable []
             [joinpath Sample.templates ["a.docx"];
              joinpath Sample.templates ["b.docx"]]
             [EvClient Sample.uploader; EvListBuckets;
              EvExists "templates"; EvIsDir "templates";
              EvGlob "templates" "**/*.docx"]
             (joinpath Sample.templates ["a.docx"]) eq_refl).
    + apply list_elem_of_here.
    + intros h0. reflexivity.
Defined.

Lemma fallback_url_nonempty (endpoint rest : string) :
  endpoint +:+ "/" +:+ rest ≠ "".
Proof. by destruct endpoint. Qed.

Lemma upload_file_shape (fl : flavour) (self : Uploader) (file_path : string)
    (object_name : option string) (env : Env) (h : history) :
  ∃ o h',
    upload_file fl self file_path object_name env h = (Return o, h')
    ∧ outcome_shape o
    ∧ (presigned_urls_nonempty env → url_nonempty o).
Proof.
  assert (Hfail : outcome_shape (false, None)
                  ∧ (presigned_urls_nonempty env → url_nonempty (false, None))).
  { split; [by right|]. by intros _. }
  rewrite upload_file_run. cbn zeta.
  destruct (env_client env h self) as [[]|e]; [|by eauto].
  destruct (env_read _ _ _) as [content|e]; [|by eauto].
  destruct (env_put_object _ _ _ _ _ _) as [[]|e]; [|by eauto].
  rewrite get_file_url_run.
  destruct (env_client env _ self) as [[]|e].
  - destruct (env_presign _ _ _ _ _) as [u|e] eqn:Hp.
    + eexists _, _. split; [done|]. split; [left; by eauto|].
      intros Hne [= ->]. by eapply Hne.
    + eexists _, _. split; [done|]. split; [left; by eauto|].
      intros _ [= Hu]. by eapply fallback_url_nonempty.
  - eexists _, _. split; [done|]. split; [left; by eauto|].
    intros _ [= Hu]. by eapply fallback_url_nonempty.
Qed.

(** What holds of the outcome of every single upload holds of every entry
    of the mapping. *)
Lemma upload_folder_entries_of_tasks (fl : flavour) (self : Uploader)
    (folder : path) (prefix : string) (env : Env) (h h' : history)
    (upload_results : gmap string outcome) (P : outcome → Prop) :
  (∀ file_path key h0,
     P (stored_outcome (upload_file fl self file_path key env h0).1)) →
  upload_folder fl self folder prefix env h = (Return upload_results, h') →
  ∀ k o, upload_results !! k = Some o → P o.
Proof.
  intros Htask Hrun'. unfold upload_folder in Hrun'.
  destruct (upload_folder_with_run fl self (upload_file fl self) folder
              prefix env h) as (found & h1 & Hfind & Hrun).
  destruct found as [[docx_files|]|e].
  - destruct Hrun as (tasks & results & h2 & Htasks & Hg & _ & Hrun).
    rewrite Hrun in Hrun'. injection Hrun' as <- _.
    unfold collect_results. apply (foldl_record_values fl P).
    { intros k o Hk. by rewrite lookup_empty in Hk. }
    eapply (gather_Forall (λ r, P (stored_outcome r))); [|exact Hg].
    destruct (find_docx_files_found fl self folder env h _ _ Hfind)
      as (_ & rels & ->).
    rewrite make_tasks_joinpath in Htasks. injection Htasks as <-.
    apply Forall_fmap, Forall_forall. intros rel _ h0. apply Htask.
  - rewrite Hrun in Hrun'. injection Hrun' as <- _.
    intros k o Hk. by rewrite lookup_empty in Hk.
  - rewrite Hrun in Hrun'. discriminate.
Qed.

Lemma upload_folder_entries (fl : flavour) (self : Uploader) (folder : path)
    (prefix : string) (env : Env) (h h' : history)
    (upload_results : gmap string outcome) :
  upload_folder fl self folder prefix env h = (Return upload_results, h') →
  ∀ k o, upload_results !! k = Some o →
    outcome_shape o ∧ (presigned_urls_nonempty env → url_nonempty o).
Proof.
  apply (upload_folder_entries_of_tasks fl self folder prefix env h h'
           upload_results
           (λ o, outcome_shape o
                 ∧ (presigned_urls_nonempty env → url_nonempty o))).
  intros file_path key h0.
  destruct (upload_file_shape fl self file_path key env h0)
    as (o & h3 & -> & Ho). exact Ho.
Qed.

(** C7: the outcome of [upload_file], and every entry of the mapping that
    [upload_folder] returns, is [(True, url)] with a url string or
    [(False, None)], never [False] with a url; the url is not the empty
    string, as long as the store signs no empty url. *)
Theorem outcomes_have_two_shapes (fl : flavour) (self : Uploader) (env : Env) :
  (∀ file_path object_name h,
     ∃ o h',
       upload_file fl self file_path object_name env h = (Return o, h')
       ∧ outcome_shape o
       ∧ (presigned_urls_nonempty env → url_nonempty o))
  ∧ (∀ folder prefix h upload_results h',
       upload_folder fl self folder prefix env h
       = (Return upload_results, h') →
       ∀ k o, upload_results !! k = Some o →
         outcome_shape o
         ∧ (presigned_urls_nonempty env → url_nonempty o))
  ∧ (∀ folder prefix h,
       folder_checks_answer env →
       ∃ upload_results h',
         upload_folder fl self folder prefix env h
         = (Return upload_results, h')
         ∧ ∀ k o, upload_results !! k = Some o →
             outcome_shape o
             ∧ (presigned_urls_nonempty env → url_nonempty o)).
Proof.
  split; [intros; apply upload_file_shape|].
  split; [intros folder prefix h m h'; apply upload_folder_entries|].
  intros folder prefix h Hanswer. unfold upload_folder.
  destruct (upload_folder_with_run fl self (upload_file fl self) folder
              prefix env h) as (found & h1 & Hfind & Hrun).
  destruct (find_docx_files_returns fl self folder env h Hanswer)
    as (found' & h1' & Hfind').
  rewrite Hfind in Hfind'. injection Hfind' as -> ->.
  destruct found' as [docx_files|].
  - destruct Hrun as (tasks & results & h2 & _ & _ & _ & Hrun).
    eexists _, _. split; [exact Hrun|]. by eapply upload_folder_entries.
  - eexists _, _. split; [exact Hrun|]. by eapply upload_folder_entries.
Qed.

Lemma outcomes_have_two_shapes_witness :
  ∃ o h',
    upload_file Posix Sample.uploader "templates/a.docx" (Some "a.docx")
      Sample.env_ok [] = (Return o, h')
    ∧ outcome_shape o ∧ url_nonempty o.
Proof.
  destruct (outcomes_have_two_shapes Posix Sample.uploader Sample.env_ok)
    as [Hfile _].
  destruct (Hfile "templates/a.docx" (Some "a.docx") [])
    as (o & h' & Hrun & Hshape & Hurl).
  exists o, h'. split; [exact Hrun|]. split; [exact Hshape|].
  apply Hurl. intros h b k ttl url [= <-]. discriminate.
Defined.

(** C8: when [list_buckets] yields the empty list, [upload_folder] returns
    the empty mapping and raises nothing; it has called nothing after
    [list_buckets]: no [head_bucket], no [create_bucket], no look at the
    folder, no file read. *)
Theorem upload_folder_without_buckets (fl : flavour) (self : Uploader)
    (task : string → option string → M outcome) (folder : path)
    (prefix : string) (env : Env) (h h1 : history) :
  list_buckets self env h = (Return [], h1) →
  upload_folder_with fl self task folder prefix env h = (Return ∅, h1)
  ∧ (h1 = h ++ [EvClient self] ∨ h1 = h ++ [EvClient self; EvListBuckets]).
Proof.
  intros Hlb. split.
  - unfold upload_folder_with, find_docx_files.
    unfold bind at 1. unfold bind at 1. by rewrite Hlb.
  - rewrite list_buckets_run in Hlb.
    destruct (env_client env h self) as [[]|e].
    + right. by injection Hlb as _ <-.
    + left. by injection Hlb as <-.
Qed.

Lemma upload_folder_without_buckets_witness :
  upload_folder Posix Sample.uploader Sample.templates ""
    Sample.env_unreachable []
  = (Return ∅, [EvClient Sample.uploader; EvListBuckets]).
Proof.
  apply (upload_folder_without_buckets Posix Sample.uploader
           (upload_file Posix Sample.uploader) Sample.templates ""
           Sample.env_unreachable []
           [EvClient Sample.uploader; EvListBuckets] eq_refl).
Defined.

(** C6: the object key of a discovered file is the prefix followed by the
    path of the file relative to the folder, with every backslash replaced
    by a forward slash, on either host; it is the key the upload of that
    file is started with; [sub\dir\file.docx] on Windows and
    [sub/dir/file.docx] on POSIX, with prefix [out/], both give
    [out/sub/dir/file.docx]. *)
Theorem object_key_uses_forward_slashes :
  (∀ fl folder prefix rel,
     ∃ key,
       object_name_of fl folder prefix (joinpath folder rel) = Return key
       ∧ key = replace_char backslash slash
                 (prefix +:+ path_str fl {| anchor := ""; names := rel |})
       ∧ occurs backslash key = false)
  ∧ (∀ fl task folder prefix rels,
       make_tasks fl task folder prefix (joinpath folder <$> rels)
       = Return ((λ rel,
                    task (path_str fl (joinpath folder rel))
                      (Some (replace_char backslash slash
                               (prefix +:+ path_str fl
                                  {| anchor := ""; names := rel |}))))
                   <$> rels))
  ∧ path_str Windows {| anchor := ""; names := ["sub"; "dir"; "file.docx"] |}
    = "sub\dir\file.docx"
  ∧ object_name_of Windows Sample.templates "out/"
      (joinpath Sample.templates ["sub"; "dir"; "file.docx"])
    = Return "out/sub/dir/file.docx"
  ∧ path_str Posix {| anchor := ""; names := ["sub"; "dir"; "file.docx"] |}
    = "sub/dir/file.docx"
  ∧ object_name_of Posix Sample.templates "out/"
      (joinpath Sample.templates ["sub"; "dir"; "file.docx"])
    = Return "out/sub/dir/file.docx".
Proof.
  split; [|split; [|by repeat split]].
  - intros fl folder prefix rel. eexists. split; [|split; [reflexivity|]].
    + apply object_name_of_joinpath.
    + by apply replace_char_removes.
  - intros. apply make_tasks_joinpath.
Qed.

(** C10: the object key does not tell files apart.  On POSIX, the file named
    [sub\dir.docx] and the file [dir.docx] in the directory [sub] get the
    same key [sub/dir.docx], and both are put under it; their entries in the
    returned mapping stay apart, under their own path strings. *)
Theorem object_key_not_injective :
  let file1 := joinpath Sample.templates ["sub\dir.docx"] in
  let file2 := joinpath Sample.templates ["sub"; "dir.docx"] in
  file1 ≠ file2
  ∧ path_str Posix file1 ≠ path_str Posix file2
  ∧ object_name_of Posix Sample.templates "" file1 = Return "sub/dir.docx"
  ∧ object_name_of Posix Sample.templates "" file2 = Return "sub/dir.docx"
  ∧ ∃ upload_results h',
      upload_folder Posix Sample.uploader Sample.templates ""
        Sample.env_backslash [] = (Return upload_results, h')
      ∧ length (List.filter (is_put_object_to "sub/dir.docx") h') = 2
      ∧ size upload_results = 2
      ∧ upload_results !! path_str Posix file1
        = Some (true, Some "https://signed/sub/dir.docx")
      ∧ upload_results !! path_str Posix file2
        = Some (true, Some "https://signed/sub/dir.docx").
Proof.
  cbn zeta. split; [done|]. split; [done|]. split; [done|]. split; [done|].
  eexists _, _. split; [reflexivity|]. by vm_compute.
Qed.

(** ** Further properties *)

Local Open Scope nat_scope.

(** *** The logger *)

Lemma setup_logger_idempotent (l : Logging.logger) :
  Logging._setup_logger (Logging._setup_logger l) = Logging._setup_logger l.
Proof. by destruct l as [lvl [|hd hs]]. Qed.

(** X1: however many uploaders are constructed, the process-wide logger is
    at level INFO and keeps the handlers it had, or holds the one stream
    handler when it had none: log lines are never duplicated. *)
Theorem setup_logger_adds_one_handler (l : Logging.logger) (n : nat) :
  let l' := Nat.iter (S n) Logging._setup_logger l in
  Logging.level l' = Logging.INFO
  ∧ Logging.handlers l'
    = match Logging.handlers l with
      | [] => [{| Logging.formatter :=
                    "%(asctime)s - %(name)s - %(levelname)s - %(message)s" |}]
      | hs => hs
      end
  ∧ l' = Logging._setup_logger l.
Proof.
  cbn zeta.
  assert (Hiter : Nat.iter (S n) Logging._setup_logger l
                  = Logging._setup_logger l).
  { induction n as [|n IH]; [done|].
    change (Nat.iter (S (S n)) Logging._setup_logger l)
      with (Logging._setup_logger (Nat.iter (S n) Logging._setup_logger l)).
    rewrite IH. apply setup_logger_idempotent. }
  rewrite Hiter. by destruct l as [lvl [|hd hs]].
Qed.

(** *** Strings *)

Lemma string_app_cons (c : ascii) (s1 s2 : string) :
  String c s1 +:+ s2 = String c (s1 +:+ s2).
Proof. reflexivity. Qed.

Lemma string_app_assoc (s1 s2 s3 : string) :
  (s1 +:+ s2) +:+ s3 = s1 +:+ (s2 +:+ s3).
Proof.
  induction s1 as [|c s1 IH]; [done|]. by rewrite !string_app_cons, IH.
Qed.

Lemma string_app_nil_r (s : string) : s +:+ "" = s.
Proof. induction s as [|c s IH]; [done|]. by rewrite string_app_cons, IH. Qed.

Lemma occurs_app (c : ascii) (s1 s2 : string) :
  occurs c (s1 +:+ s2) = occurs c s1 || occurs c s2.
Proof.
  induction s1 as [|c1 s1 IH]; [done|].
  rewrite string_app_cons. simpl. by rewrite IH, orb_assoc.
Qed.

Lemma basename_aux_no_slash (s acc : string) :
  occurs slash acc = false →
  occurs slash (basename_aux Posix s acc) = false.
Proof.
  revert acc. induction s as [|c s IH]; intros acc Hacc; simpl; [done|].
  destruct (Ascii.eqb c slash) eqn:Hc.
  - by apply IH.
  - apply IH. rewrite occurs_app, Hacc. simpl. by rewrite Hc.
Qed.

Lemma basename_aux_plain (s acc : string) :
  occurs slash s = false → basename_aux Posix s acc = acc +:+ s.
Proof.
  revert acc. induction s as [|c s IH]; intros acc Hs; simpl.
  - by rewrite string_app_nil_r.
  - simpl in Hs. apply orb_false_iff in Hs as [Hc Hs].
    rewrite Hc, IH by done. by rewrite string_app_assoc.
Qed.

Lemma basename_aux_after_slash (dir name acc : string) :
  occurs slash name = false →
  basename_aux Posix (dir +:+ "/" +:+ name) acc = name.
Proof.
  intros Hname. revert acc. induction dir as [|c dir IH]; intros acc; simpl.
  - change (Ascii.eqb "/" slash) with true. cbn iota.
    by rewrite basename_aux_plain.
  - destruct (Ascii.eqb c slash); apply IH.
Qed.

Lemma split_aux_nonempty (sep : ascii) (s cur : string) :
  Report.split_aux sep s cur ≠ [].
Proof.
  revert cur. induction s as [|c s IH]; intros cur; simpl; [done|].
  destruct (Ascii.eqb c sep); [done|apply IH].
Qed.

Lemma last_split_aux (s cur : string) :
  last (Report.split_aux slash s cur) = Some (basename_aux Posix s cur).
Proof.
  revert cur. induction s as [|c s IH]; intros cur; simpl; [done|].
  destruct (Ascii.eqb c slash); [|apply IH].
  rewrite <- IH.
  destruct (Report.split_aux slash s "") as [|x l] eqn:Hs; [|done].
  by apply split_aux_nonempty in Hs.
Qed.

(** X2: the name that [main] reports for a file, [file.split("/")[-1]],
    always exists (no [IndexError]) and is what follows the last [/]: it
    holds no [/]; it is the last name of a POSIX path; and it is the whole
    string when the string has no [/], as the path strings of Windows. *)
Theorem report_name_is_posix_basename (file : string) :
  last (Report.split slash file) = Some (basename Posix file)
  ∧ occurs slash (basename Posix file) = false
  ∧ (∀ dir name,
       file = dir +:+ "/" +:+ name → occurs slash name = false →
       basename Posix file = name)
  ∧ (occurs slash file = false → basename Posix file = file).
Proof.
  split; [apply last_split_aux|]. split; [by apply basename_aux_no_slash|].
  split.
  - intros dir name -> Hname. by apply basename_aux_after_slash.
  - intros Hfile. unfold basename. by rewrite basename_aux_plain.
Qed.

Lemma report_name_is_posix_basename_witness :
  basename Posix "templates/sub/a.docx" = "a.docx"
  ∧ basename Posix "templates\sub\a.docx" = "templates\sub\a.docx".
Proof.
  split.
  - destruct (report_name_is_posix_basename "templates/sub/a.docx")
      as (_ & _ & Hlast & _).
    apply (Hlast "templates/sub" "a.docx"); reflexivity.
  - destruct (report_name_is_posix_basename "templates\sub\a.docx")
      as (_ & _ & _ & Hwhole).
    apply Hwhole. reflexivity.
Defined.

(** *** The report *)

Lemma report_entry_run (out : Report.output) (acc : Report.report)
    (entry : string * outcome) :
  ∃ acc' err,
    Report.report_entry out acc entry = (acc', err)
    ∧ (∀ e, err = Some e → Report.raised_by_output out e)
    ∧ length (Report.printed acc') ≤ S (length (Report.printed acc))
    ∧ Report.rows acc'
      = Report.rows acc
        ++ match err with
           | None => option_list (Report.entry_row entry)
           | Some _ => []
           end
    ∧ (Report.output_accepts_all out →
       err = None
       ∧ length (Report.printed acc') = S (length (Report.printed acc))).
Proof.
  destruct entry as [file [success url]].
  unfold Report.report_entry, Report.split, Report.entry_row.
  rewrite last_split_aux. cbn [fst snd].
  destruct (Report.truthy url); unfold Report.print, Report.writerow.
  - match goal with
    | |- context [Report.print_error out acc ?l] =>
        destruct (Report.print_error out acc l) as [e|] eqn:Hprint
    end.
    { eexists _, _. split; [done|]. split.
      { intros e' [= <-]. exists acc. left. by eauto. }
      split; [lia|]. split; [by rewrite app_nil_r|].
      intros [Hp _]. by rewrite Hp in Hprint. }
    match goal with
    | |- context [Report.writerow_error out ?a ?r] =>
        destruct (Report.writerow_error out a r) as [e|] eqn:Hwrite
    end.
    + eexists _, _. split; [done|]. split.
      { intros e' [= <-]. eexists. right. by eauto. }
      cbn. rewrite length_app, app_nil_r. cbn. split; [lia|]. split; [done|].
      intros [_ Hw]. by rewrite Hw in Hwrite.
    + eexists _, _. split; [done|]. split; [done|].
      cbn. rewrite length_app. cbn. split; [lia|]. split; [done|].
      intros _. split; [done|lia].
  - match goal with
    | |- context [Report.print_error out acc ?l] =>
        destruct (Report.print_error out acc l) as [e|] eqn:Hprint
    end.
    + eexists _, _. split; [done|]. split.
      { intros e' [= <-]. exists acc. left. by eauto. }
      split; [lia|]. split; [by rewrite app_nil_r|].
      intros [Hp _]. by rewrite Hp in Hprint.
    + eexists _, _. split; [done|]. split; [done|].
      cbn. rewrite length_app, app_nil_r. cbn. split; [lia|].
      split; [done|]. intros _. split; [done|lia].
Qed.

Lemma omap_cons_entry_row (entry : string * outcome)
    (items : list (string * outcome)) :
  omap Report.entry_row (entry :: items)
  = option_list (Report.entry_row entry) ++ omap Report.entry_row items.
Proof. cbn. by destruct (Report.entry_row entry). Qed.

Lemma write_report_run (out : Report.output)
    (items : list (string * outcome)) (acc : Report.report) :
  ∃ r err,
    Report.write_report out items acc = (r, err)
    ∧ (∀ e, err = Some e → Report.raised_by_output out e)
    ∧ length (Report.printed r) ≤ length (Report.printed acc) + length items
    ∧ (∃ written rest,
         omap Report.entry_row items = written ++ rest
         ∧ Report.rows r = Report.rows acc ++ written
         ∧ (err = None → rest = []))
    ∧ (Report.output_accepts_all out →
       err = None
       ∧ length (Report.printed r)
         = length (Report.printed acc) + length items).
Proof.
  revert acc. induction items as [|entry items IH]; intros acc.
  - exists acc, None. cbn. split; [done|]. split; [done|]. split; [lia|].
    split; [exists [], []; rewrite !app_nil_r; by repeat split|].
    intros _. split; [done|lia].
  - cbn [Report.write_report].
    destruct (report_entry_run out acc entry)
      as (acc' & err & -> & Herr & Hlen & Hrows & Hok).
    rewrite omap_cons_entry_row.
    destruct err as [e|].
    + exists acc', (Some e). split; [done|]. split; [done|].
      split; [cbn; lia|]. split.
      * eexists [], _. split; [done|]. split; [done|done].
      * intros Hall. by destruct (Hok Hall) as [[=] _].
    + destruct (IH acc') as (r & err & -> & Herr' & Hlen' & Hrows' & Hok').
      exists r, err. split; [done|]. split; [done|].
      split; [cbn; lia|]. split.
      * destruct Hrows' as (written & rest & Hsplit & Hr & Hrest).
        exists (option_list (Report.entry_row entry) ++ written), rest.
        split; [by rewrite Hsplit, app_assoc|].
        split; [by rewrite Hr, Hrows, app_assoc|done].
      * intros Hall. destruct (Hok Hall) as (_ & Hl).
        destruct (Hok' Hall) as (-> & Hl').
        split; [done|]. cbn; lia.
Qed.

(** X3: the report loop of [main] stops only at an exception of [print] or
    of [writerow] (a name the output cannot encode, a failing stream),
    never at an [IndexError].  It prints at most one line per entry, and
    what it has written are the first of the rows due: one row, the base
    name of the file with its url, for each entry whose url is neither
    [None] nor the empty string, in the order of the entries.  When it
    ends without exception, and so whenever [print] and [writerow] do not
    raise, all the rows due are written; in the latter case one line per
    entry is printed. *)
Theorem write_report_rows (out : Report.output)
    (items : list (string * outcome)) :
  ∃ r err,
    Report.write_report out items Report.empty_report = (r, err)
    ∧ (∀ e, err = Some e → Report.raised_by_output out e)
    ∧ length (Report.printed r) ≤ length items
    ∧ Report.rows r `prefix_of` omap Report.entry_row items
    ∧ (err = None → Report.rows r = omap Report.entry_row items)
    ∧ (Report.output_accepts_all out →
       err = None ∧ length (Report.printed r) = length items)
    ∧ length (omap Report.entry_row items) ≤ length items.
Proof.
  destruct (write_report_run out items Report.empty_report)
    as (r & err & Hrun & Herr & Hlen & (written & rest & Hsplit & Hr & Hrest)
        & Hok).
  exists r, err. split; [done|]. split; [done|]. split; [done|].
  cbn in Hr. split; [by exists rest; rewrite Hsplit, Hr|].
  split; [intros ->%Hrest; by rewrite Hsplit, Hr, app_nil_r|].
  split; [done|].
  clear. induction items as [|entry items IH]; cbn; [done|].
  destruct (Report.entry_row entry); cbn; lia.
Qed.

Lemma write_report_rows_witness :
  ∃ r,
    Report.write_report Scenario.output_ok
      [("templates/a.docx", (true, Some "https://signed/a.docx"));
       ("templates/b.docx", (false, None))] Report.empty_report
    = (r, None)
    ∧ Report.rows r = [("a.docx", "https://signed/a.docx")].
Proof.
  destruct (write_report_rows Scenario.output_ok
              [("templates/a.docx", (true, Some "https://signed/a.docx"));
               ("templates/b.docx", (false, None))])
    as (r & err & Hrun & _ & _ & _ & Hrows & Hok & _).
  destruct Hok as [-> _]; [by split|].
  exists r. split; [exact Hrun|]. by apply Hrows.
Defined.

(** *** Calls made since a history *)

Lemma calls_since_app (f : event → bool) (h evs : history) :
  calls_since f h (h ++ evs) = length (List.filter f evs).
Proof. unfold calls_since. by rewrite drop_app_length. Qed.

Lemma appended_refl (P : event → Prop) (h : history) : appended P h h.
Proof. exists []. by rewrite app_nil_r. Qed.



Lemma appended_impl (P Q : event → Prop) (h h' : history) :
  (∀ ev, P ev → Q ev) → appended P h h' → appended Q h h'.
Proof.
  intros HPQ (evs & -> & H). exists evs. split; [done|].
  by eapply Forall_impl.
Qed.

Ltac solve_events :=
  repeat (apply List.Forall_cons; [first [done | by auto 6 | by cbn; auto 6]|]);
  apply List.Forall_nil.

(** *** The store facade *)







(** *** One upload, call by call *)

Lemma get_file_url_events (self : Uploader) (key : string) (env : Env)
    (h : history) :
  ∃ url evs,
    get_file_url self key env h = (Return url, h ++ evs)
    ∧ (evs = [EvClient self]
       ∨ evs = [EvClient self; EvPresign (bucket_name self) key 604800]).
Proof.
  rewrite get_file_url_run.
  destruct (env_client env h self) as [[]|e]; [|by eauto].
  destruct (env_presign _ _ _ _ _); by eauto.
Qed.

(** X7: [upload_file] reports success exactly when the client opened, the
    file was read and [put_object] accepted it; the object it puts is the
    bytes it read, in the bucket of the uploader, under the asked key (on
    POSIX, the base name of the file when no key is given), as a DOCX
    document. *)
Theorem upload_file_succeeds_iff_put (fl : flavour) (self : Uploader)
    (file_path : string) (object_name : option string) (env : Env)
    (h : history) :
  fl = Posix ∨ is_Some object_name →
  let key := default (basename fl file_path) object_name in
  ∃ o h',
    upload_file fl self file_path object_name env h = (Return o, h')
    ∧ (o.1 = true ↔
       ∃ content,
         env_client env h self = Return tt
         ∧ env_read env (h ++ [EvClient self]) file_path = Return content
         ∧ env_put_object env (h ++ [EvClient self; EvRead file_path])
             (bucket_name self) key content docx_content_type = Return tt)
    ∧ (∀ content,
         env_client env h self = Return tt →
         env_read env (h ++ [EvClient self]) file_path = Return content →
         ∃ rest,
           h' = h ++ [EvClient self; EvRead file_path;
                      EvPutObject (bucket_name self) key content
                        docx_content_type] ++ rest).
Proof.
  intros _ key. rewrite upload_file_run. cbn zeta. fold key.
  destruct (env_client env h self) as [[]|e].
  2:{ eexists _, _. split; [done|]. split; [|by intros content [=]].
      split; [done|]. by intros (content & [=] & _). }
  destruct (env_read _ _ _) as [content|e].
  2:{ eexists _, _. split; [done|]. split; [|by intros content _ [=]].
      split; [done|]. by intros (content & _ & [=] & _). }
  destruct (env_put_object _ _ _ _ _ _) as [[]|e] eqn:Hput.
  - destruct (get_file_url_events self key env
                (h ++ [EvClient self; EvRead file_path;
                       EvPutObject (bucket_name self) key content
                         docx_content_type]))
      as (url & evs & -> & _).
    eexists _, _. split; [done|]. split.
    + split; [|done]. intros _. by exists content.
    + intros content' _ [= <-]. exists evs. by rewrite <- app_assoc.
  - eexists _, _. split; [done|]. split.
    + split; [done|]. intros (content' & _ & [= <-] & Hput').
      rewrite Hput in Hput'. discriminate.
    + intros content' _ [= <-]. exists []. by rewrite app_nil_r.
Qed.

Lemma upload_file_succeeds_iff_put_witness :
  ∃ o h',
    upload_file Posix Sample.uploader "templates/a.docx" (Some "a.docx")
      Sample.env_ok [] = (Return o, h')
    ∧ o.1 = true.
Proof.
  destruct (upload_file_succeeds_iff_put Posix Sample.uploader
              "templates/a.docx" (Some "a.docx") Sample.env_ok []
              (or_introl eq_refl))
    as (o & h' & Hrun & Hiff & _).
  exists o, h'. split; [exact Hrun|]. apply Hiff. by exists [].
Defined.

Lemma upload_file_events (fl : flavour) (self : Uploader)
    (file_path : string) (object_name : option string) (env : Env)
    (h : history) :
  ∃ o evs,
    upload_file fl self file_path object_name env h = (Return o, h ++ evs)
    ∧ Forall (upload_file_call self file_path
                (default (basename fl file_path) object_name)) evs
    ∧ length (List.filter is_presign evs) ≤ (if o.1 then 1 else 0)
    ∧ (if o.1 then 1 else 0) ≤ length (List.filter is_put_object evs)
    ∧ length (List.filter is_put_object evs)
      ≤ length (List.filter is_read evs)
    ∧ length (List.filter is_read evs) ≤ 1.
Proof.
  rewrite upload_file_run. cbn zeta.
  set (key := default (basename fl file_path) object_name).
  destruct (env_client env h self) as [[]|e].
  2:{ eexists _, _. split; [done|]. split; [solve_events|].
      cbn. repeat split; lia. }
  destruct (env_read _ _ _) as [content|e].
  2:{ eexists _, _. split; [done|]. split; [solve_events|].
      cbn. repeat split; lia. }
  destruct (env_put_object _ _ _ _ _ _) as [[]|e].
  2:{ eexists _, _. split; [done|]. split; [solve_events|].
      cbn. repeat split; lia. }
  destruct (get_file_url_events self key env
              (h ++ [EvClient self; EvRead file_path;
                     EvPutObject (bucket_name self) key content
                       docx_content_type]))
    as (url & evs & -> & [->| ->]).
  - eexists _, _. split; [by rewrite <- app_assoc|].
    split; [solve_events|]. cbn. repeat split; lia.
  - eexists _, _. split; [by rewrite <- app_assoc|].
    split; [solve_events|]. cbn. repeat split; lia.
Qed.

(** X8: whatever faults, [upload_file] only opens its own client, reads
    the one file and puts and signs the one key (the asked one; on POSIX,
    the base name of the file when none is given) in the bucket of the
    uploader; it reads at most once, puts no more than it read, signs no
    more than it put, and asks for no signed url for an upload that
    failed. *)
Theorem upload_file_touches_one_object (fl : flavour) (self : Uploader)
    (file_path : string) (object_name : option string) (env : Env)
    (h : history) :
  fl = Posix ∨ is_Some object_name →
  ∃ o h',
    upload_file fl self file_path object_name env h = (Return o, h')
    ∧ appended (upload_file_call self file_path
                  (default (basename fl file_path) object_name)) h h'
    ∧ calls_since is_read h h' ≤ 1
    ∧ calls_since is_put_object h h' ≤ calls_since is_read h h'
    ∧ calls_since is_presign h h' ≤ calls_since is_put_object h h'
    ∧ (o.1 = false → calls_since is_presign h h' = 0)
    ∧ (o.1 = true →
       calls_since is_read h h' = 1 ∧ calls_since is_put_object h h' = 1).
Proof.
  intros _.
  destruct (upload_file_events fl self file_path object_name env h)
    as (o & evs & Hrun & Hall & Hs & Hp & Hr & Hone).
  exists o, (h ++ evs). rewrite !calls_since_app.
  split; [done|]. split; [by exists evs|].
  destruct (o.1); repeat split; try done; lia.
Qed.

Lemma upload_file_touches_one_object_witness :
  ∃ o h',
    upload_file Posix Sample.uploader "templates/a.docx" (Some "a.docx")
      Scenario.env_put_refused [] = (Return o, h')
    ∧ calls_since is_presign [] h' = 0.
Proof.
  destruct (upload_file_touches_one_object Posix Sample.uploader
              "templates/a.docx" (Some "a.docx") Scenario.env_put_refused []
              (or_introl eq_refl))
    as (o & h' & Hrun & _ & _ & _ & _ & Hfail & _).
  exists o, h'. split; [exact Hrun|]. apply Hfail.
  injection Hrun as <- _. reflexivity.
Defined.

(** X9: without a key, [upload_file] puts the file under its base name:
    on POSIX a file [dir/name] is put under [name], whatever the
    directories, so that files of one name in different directories go to
    the same key. *)
Theorem upload_file_default_key (self : Uploader) (dir name : string)
    (env : Env) (h : history) :
  occurs slash name = false →
  basename Posix (dir +:+ "/" +:+ name) = name
  ∧ upload_file Posix self (dir +:+ "/" +:+ name) None env h
    = upload_file Posix self (dir +:+ "/" +:+ name) (Some name) env h.
Proof.
  intros Hname.
  assert (Hbase : basename Posix (dir +:+ "/" +:+ name) = name)
    by (by apply basename_aux_after_slash).
  split; [done|]. rewrite !upload_file_run. cbn [default]. by rewrite Hbase.
Qed.

Lemma upload_file_default_key_witness :
  upload_file Posix Sample.uploader "templates/sub/a.docx" None
    Sample.env_ok []
  = upload_file Posix Sample.uploader "templates/sub/a.docx" (Some "a.docx")
      Sample.env_ok [].
Proof.
  refine (proj2 (upload_file_default_key Sample.uploader "templates/sub"
                   "a.docx" Sample.env_ok [] _)). reflexivity.
Defined.

(** *** Object keys *)

Lemma replace_sep (fl : flavour) :
  replace_char backslash slash (sep fl) = "/".
Proof. by destruct fl. Qed.

Lemma replace_concat (fl : flavour) (rel : list string) :
  replace_char backslash slash (String.concat (sep fl) rel)
  = String.concat "/" (replace_char backslash slash <$> rel).
Proof.
  induction rel as [|name [|name' rest] IH]; [done|done|].
  change (String.concat (sep fl) (name :: name' :: rest))
    with (name +:+ sep fl +:+ String.concat (sep fl) (name' :: rest)).
  rewrite !replace_char_app, replace_sep, IH. done.
Qed.

(** X10: the object key of a discovered file does not depend on the host:
    it is the prefix, followed by the names of the relative path joined by
    [/], backslashes replaced in each; so it is the key for the empty
    prefix with the prefix put in front as it is, without a separator
    added. *)
Theorem object_key_host_independent (folder : path) (prefix name : string)
    (rest : list string) :
  (∀ fl,
     object_name_of fl folder prefix (joinpath folder (name :: rest))
     = Return (replace_char backslash slash prefix
               +:+ String.concat "/"
                     (replace_char backslash slash <$> name :: rest)))
  ∧ object_name_of Windows folder prefix (joinpath folder (name :: rest))
    = object_name_of Posix folder prefix (joinpath folder (name :: rest))
  ∧ (∀ fl,
       ∃ key,
         object_name_of fl folder "" (joinpath folder (name :: rest))
         = Return key
         ∧ object_name_of fl folder prefix (joinpath folder (name :: rest))
           = Return (replace_char backslash slash prefix +:+ key)).
Proof.
  assert (Hkey : ∀ fl p,
    object_name_of fl folder p (joinpath folder (name :: rest))
    = Return (replace_char backslash slash p
              +:+ String.concat "/"
                    (replace_char backslash slash <$> name :: rest))).
  { intros fl p. rewrite object_name_of_joinpath.
    unfold path_str. cbn [names anchor].
    change ("" +:+ String.concat (sep fl) (name :: rest))
      with (String.concat (sep fl) (name :: rest)).
    by rewrite replace_char_app, replace_concat. }
  split; [intros; apply Hkey|]. split; [by rewrite !Hkey|].
  intros fl. eexists. split; [apply Hkey|]. by rewrite Hkey.
Qed.

(** *** The checks before the upload, step by step *)

Lemma list_buckets_events (self : Uploader) (env : Env) (h : history) :
  ∃ buckets evs,
    list_buckets self env h = (Return buckets, h ++ evs)
    ∧ Forall (λ ev, ev = EvClient self ∨ ev = EvListBuckets) evs.
Proof.
  rewrite list_buckets_run.
  destruct (env_client env h self) as [[]|e]; eexists _, _;
    (split; [done|]); solve_events.
Qed.

Lemma create_bucket_if_not_exists_events (self : Uploader) (env : Env)
    (h : history) :
  ∃ created evs,
    create_bucket_if_not_exists self env h = (Return created, h ++ evs)
    ∧ Forall (λ ev, ev = EvClient self
                    ∨ ev = EvHeadBucket (bucket_name self)
                    ∨ ev = EvCreateBucket (bucket_name self)) evs.
Proof.
  unfold create_bucket_if_not_exists. unfold bind at 1.
  rewrite check_bucket_exists_run.
  destruct (env_client env h self) as [[]|e].
  - destruct (negb _).
    { eexists _, _. split; [done|]. solve_events. }
    run_method.
    destruct (env_client env _ self) as [[]|e].
    + destruct (env_create_bucket _ _ _) as [[]|e]; [|destruct e];
        eexists _, _; (split; [done|]); solve_events.
    + destruct e; eexists _, _; (split; [done|]); solve_events.
  - run_method.
    destruct (env_client env _ self) as [[]|e'].
    + destruct (env_create_bucket _ _ _) as [[]|e'']; [|destruct e''];
        eexists _, _; (split; [done|]); solve_events.
    + destruct e'; eexists _, _; (split; [done|]); solve_events.
Qed.

Lemma folder_checks_events (fl : flavour) (folder : path) (env : Env)
    (h : history) :
  ∃ found evs,
    folder_checks fl folder env h = (found, h ++ evs)
    ∧ Forall (λ ev, is_folder_access ev = true) evs.
Proof.
  unfold folder_checks. cbn zeta.
  destruct (env_exists env h _) as [[|]|e];
    [destruct (env_is_dir env _ _) as [[|]|e];
       [destruct (env_glob env _ _ _) as [found|e]|..]|..];
    eexists _, _; (split; [done|]); solve_events.
Qed.

(** The checks before the upload read no file, put no object and sign no
    url; when the bucket is listed they do not look at the bucket. *)
Lemma find_docx_files_events (fl : flavour) (self : Uploader) (folder : path)
    (env : Env) (h : history) :
  ∃ found evs,
    find_docx_files fl self folder env h = (found, h ++ evs)
    ∧ Forall (λ ev, is_transfer ev = false) evs
    ∧ (∀ buckets h1,
         list_buckets self env h = (Return buckets, h1) →
         bucket_name self ∈ buckets →
         Forall (λ ev, is_bucket_probe ev = false) evs).
Proof.
  destruct (find_docx_files_steps fl self folder env h)
    as (buckets & h1 & ready & h2 & Hlb & Hready & ->).
  destruct (list_buckets_events self env h) as (buckets' & evs1 & Hlb' & Hevs1).
  rewrite Hlb in Hlb'. injection Hlb' as <- ->.
  assert (Hlisted : ∀ buckets' h1',
            list_buckets self env h = (Return buckets', h1') →
            buckets' = buckets)
    by (intros buckets' h1' Hlb2; rewrite Hlb in Hlb2; by injection Hlb2).
  assert (Hevs1t : Forall (λ ev, is_transfer ev = false) evs1)
    by (eapply Forall_impl; [exact Hevs1|]; by intros ev [-> | ->]).
  assert (Hevs1p : Forall (λ ev, is_bucket_probe ev = false) evs1)
    by (eapply Forall_impl; [exact Hevs1|]; by intros ev [-> | ->]).
  destruct buckets as [|b buckets].
  { eexists _, evs1. split; [done|]. split; [done|].
    intros buckets' h1' ->%Hlisted Hin. by apply elem_of_nil in Hin. }
  destruct (folder_checks_events fl folder env h2) as (found & evs3 & Hfc & Hevs3).
  assert (Hevs3t : Forall (λ ev, is_transfer ev = false) evs3)
    by (eapply Forall_impl; [exact Hevs3|]; by intros []).
  assert (Hevs3p : Forall (λ ev, is_bucket_probe ev = false) evs3)
    by (eapply Forall_impl; [exact Hevs3|]; by intros []).
  case_bool_decide as Hin.
  - injection Hready as <- <-. rewrite Hfc.
    eexists _, (evs1 ++ evs3). split; [by rewrite app_assoc|].
    split; [by apply Forall_app|]. intros _ _ _ _. by apply Forall_app.
  - destruct (create_bucket_if_not_exists_events self env (h ++ evs1))
      as (created & evs2 & Hc & Hevs2).
    rewrite Hready in Hc. injection Hc as <- ->.
    assert (Hevs2t : Forall (λ ev, is_transfer ev = false) evs2)
      by (eapply Forall_impl; [exact Hevs2|]; by intros ev [-> | [-> | ->]]).
    destruct ready.
    + rewrite Hfc. eexists _, (evs1 ++ evs2 ++ evs3).
      split; [by rewrite !app_assoc|].
      split; [by rewrite !Forall_app|].
      intros buckets' h1' ->%Hlisted Hin'. done.
    + eexists _, (evs1 ++ evs2). split; [by rewrite app_assoc|].
      split; [by apply Forall_app|].
      intros buckets' h1' ->%Hlisted Hin'. done.
Qed.

(** *** The upload phase, call by call *)

Lemma upload_file_call_upload_call (self : Uploader) (file_path key : string)
    (ev : event) :
  occurs backslash key = false →
  upload_file_call self file_path key ev → upload_call self ev.
Proof.
  intros Hkey. destruct ev; cbn; try done.
  - by intros (-> & -> & ->).
  - by intros (-> & -> & ->).
Qed.

Lemma gather_upload_events (fl : flavour) (self : Uploader) (folder : path)
    (prefix : string) (rels : list (list string)) (env : Env) (h : history) :
  ∃ results evs,
    gather ((λ rel,
               upload_file fl self (path_str fl (joinpath folder rel))
                 (Some (replace_char backslash slash
                          (prefix +:+ path_str fl
                                        {| anchor := ""; names := rel |}))))
              <$> rels) env h
    = (Return results, h ++ evs)
    ∧ Forall (upload_call self) evs
    ∧ length (List.filter is_presign evs)
      ≤ length (List.filter is_put_object evs)
    ∧ length (List.filter is_put_object evs)
      ≤ length (List.filter is_read evs)
    ∧ length (List.filter is_read evs) ≤ length rels.
Proof.
  revert h. induction rels as [|rel rels IH]; intros h.
  - exists [], []. cbn. rewrite app_nil_r. unfold ret. repeat split; done.
  - cbn [fmap list_fmap gather]. unfold_monad.
    match goal with
    | |- context [upload_file fl self ?p ?k env h] =>
        destruct (upload_file_events fl self p k env h)
          as (o & evs1 & -> & Hall & Hs & Hp & Hr & Hone)
    end.
    destruct (IH (h ++ evs1)) as (results & evs2 & Hg & Hall2 & Hs2 & Hp2 & Hr2).
    cbn [fmap list_fmap] in Hg. rewrite Hg.
    exists (Return o :: results), (evs1 ++ evs2).
    split; [by rewrite app_assoc|]. split.
    { apply Forall_app. split; [|done].
      eapply Forall_impl; [exact Hall|]. intros ev.
      apply upload_file_call_upload_call. cbn [default].
      by apply replace_char_removes. }
    rewrite !List.filter_app, !length_app. cbn [length].
    destruct (o.1); lia.
Qed.

(** The whole run of [upload_folder]: the calls of the checks, then the
    calls of the upload. *)
Lemma upload_folder_events (fl : flavour) (self : Uploader) (folder : path)
    (prefix : string) (env : Env) (h : history) :
  ∃ found result evs1 evs2,
    find_docx_files fl self folder env h = (found, h ++ evs1)
    ∧ upload_folder fl self folder prefix env h
      = (result, h ++ evs1 ++ evs2)
    ∧ Forall (λ ev, is_transfer ev = false) evs1
    ∧ (∀ buckets h1,
         list_buckets self env h = (Return buckets, h1) →
         bucket_name self ∈ buckets →
         Forall (λ ev, is_bucket_probe ev = false) evs1)
    ∧ Forall (upload_call self) evs2
    ∧ length (List.filter is_presign evs2)
      ≤ length (List.filter is_put_object evs2)
    ∧ length (List.filter is_put_object evs2)
      ≤ length (List.filter is_read evs2)
    ∧ length (List.filter is_read evs2) ≤ length (discovered_files found)
    ∧ match found with
      | Raise e => result = Raise e ∧ evs2 = []
      | Return None => result = Return ∅ ∧ evs2 = []
      | Return (Some docx_files) =>
          docx_files ≠ []
          ∧ ∃ upload_results,
              result = Return upload_results
              ∧ dom upload_results
                = list_to_set (path_str fl <$> docx_files)
      end.
Proof.
  destruct (find_docx_files_events fl self folder env h)
    as (found & evs1 & Hfind & Hevs1 & Hprobe).
  destruct (upload_folder_with_run fl self (upload_file fl self) folder
              prefix env h) as (found' & h1 & Hfind' & Hrun).
  rewrite Hfind in Hfind'. injection Hfind' as <- <-.
  exists found. destruct found as [[docx_files|]|e].
  - destruct Hrun as (tasks & results & h2 & Htasks & Hg & Hlen & Hrun).
    destruct (find_docx_files_found fl self folder env h _ _ Hfind)
      as (Hne & rels & ->).
    rewrite make_tasks_joinpath in Htasks. injection Htasks as <-.
    destruct (gather_upload_events fl self folder prefix rels env (h ++ evs1))
      as (results' & evs2 & Hg' & Hall & Hs & Hp & Hr).
    rewrite Hg in Hg'. injection Hg' as <- ->.
    exists (Return (collect_results fl (joinpath folder <$> rels) results)),
      evs1, evs2.
    split; [done|]. split; [by rewrite app_assoc|].
    repeat (split; [done|]).
    split; [by cbn; rewrite length_fmap|]. split; [done|].
    eexists. split; [done|].
    unfold collect_results. rewrite dom_foldl_record by done.
    rewrite dom_empty_L. apply union_empty_l_L.
  - exists (Return ∅), evs1, []. rewrite app_nil_r. unfold upload_folder.
    split; [done|]. split; [done|]. repeat (split; [done|]).
    cbn. repeat split; try done; lia.
  - exists (Raise e), evs1, []. rewrite app_nil_r. unfold upload_folder.
    split; [done|]. split; [done|]. repeat (split; [done|]).
    cbn. repeat split; try done; lia.
Qed.

Lemma Forall_filter_nil (f : event → bool) (evs : history) :
  Forall (λ ev, f ev = false) evs → List.filter f evs = [].
Proof.
  induction 1 as [|ev evs Hev _ IH]; [done|]. cbn. by rewrite Hev.
Qed.

(** X11: when the bucket of the uploader is among the listed buckets,
    [upload_folder] never calls [head_bucket] nor [create_bucket], whether
    it returns or a look at the folder raises. *)
Theorem upload_folder_listed_bucket_not_probed (fl : flavour)
    (self : Uploader) (folder : path) (prefix : string) (env : Env)
    (h h1 : history) (buckets : list string) :
  list_buckets self env h = (Return buckets, h1) →
  bucket_name self ∈ buckets →
  ∃ result h',
    upload_folder fl self folder prefix env h = (result, h')
    ∧ calls_since is_bucket_probe h h' = 0
    ∧ (folder_checks_answer env → is_raise result = false).
Proof.
  intros Hlb Hin.
  destruct (upload_folder_events fl self folder prefix env h)
    as (found & r & evs1 & evs2 & Hfind & Hrun & _ & Hprobe & Hup & _ & _ & _
        & Hfound).
  exists r, (h ++ evs1 ++ evs2). split; [done|]. split.
  - rewrite calls_since_app, List.filter_app, length_app.
    rewrite (Forall_filter_nil is_bucket_probe evs1) by (by eapply Hprobe).
    rewrite (Forall_filter_nil is_bucket_probe evs2); [done|].
    eapply Forall_impl; [exact Hup|]. by intros [].
  - intros Hanswer.
    destruct (find_docx_files_returns fl self folder env h Hanswer)
      as (found' & h1' & Hfind').
    rewrite Hfind in Hfind'. injection Hfind' as -> _.
    destruct found' as [docx_files|].
    + by destruct Hfound as (_ & m & -> & _).
    + by destruct Hfound as [-> _].
Qed.

Lemma upload_folder_listed_bucket_not_probed_witness :
  ∃ result h',
    upload_folder Posix Sample.uploader Sample.templates "out/"
      Scenario.env_listed [] = (result, h')
    ∧ calls_since is_bucket_probe [] h' = 0
    ∧ is_raise result = false.
Proof.
  destruct (upload_folder_listed_bucket_not_probed Posix Sample.uploader
              Sample.templates "out/" Scenario.env_listed []
              [EvClient Sample.uploader; EvListBuckets] ["docs"] eq_refl)
    as (r & h' & Hrun & Hcalls & Hreturns).
  - by apply list_elem_of_here.
  - exists r, h'. split; [exact Hrun|]. split; [exact Hcalls|].
    apply Hreturns. repeat split; intros; reflexivity.
Defined.

(** X12: when the bucket is not listed and cannot be made ready,
    [upload_folder] returns the empty mapping right after the attempt: it
    does not look at the folder, reads no file and puts no object. *)
Theorem upload_folder_bucket_not_ready (fl : flavour) (self : Uploader)
    (task : string → option string → M outcome) (folder : path)
    (prefix : string) (env : Env) (h h1 h2 : history)
    (buckets : list string) :
  list_buckets self env h = (Return buckets, h1) →
  buckets ≠ [] →
  bucket_name self ∉ buckets →
  create_bucket_if_not_exists self env h1 = (Return false, h2) →
  upload_folder_with fl self task folder prefix env h = (Return ∅, h2)
  ∧ calls_since is_folder_access h h2 = 0
  ∧ calls_since is_transfer h h2 = 0.
Proof.
  intros Hlb Hne Hnotin Hcreate. split.
  - unfold upload_folder_with, find_docx_files.
    unfold bind at 1. unfold bind at 1. rewrite Hlb.
    destruct buckets as [|b buckets]; [done|].
    unfold bind at 1. rewrite bool_decide_eq_false_2 by done.
    by rewrite Hcreate.
  - destruct (list_buckets_events self env h) as (bs & evs1 & Hlb' & Hevs1).
    rewrite Hlb in Hlb'. injection Hlb' as <- ->.
    destruct (create_bucket_if_not_exists_events self env (h ++ evs1))
      as (created & evs2 & Hc & Hevs2).
    rewrite Hcreate in Hc. injection Hc as <- ->.
    rewrite <- app_assoc, !calls_since_app, !List.filter_app, !length_app.
    rewrite (Forall_filter_nil is_folder_access evs1),
      (Forall_filter_nil is_folder_access evs2),
      (Forall_filter_nil is_transfer evs1),
      (Forall_filter_nil is_transfer evs2); [done|..].
    all: first [ eapply Forall_impl; [exact Hevs1|]; by intros ev [-> | ->]
               | eapply Forall_impl; [exact Hevs2|];
                 by intros ev [-> | [-> | ->]] ].
Qed.

Lemma upload_folder_bucket_not_ready_witness :
  ∃ h2,
    upload_folder Posix Sample.uploader Sample.templates ""
      Scenario.env_no_bucket [] = (Return ∅, h2)
    ∧ calls_since is_folder_access [] h2 = 0.
Proof.
  eexists.
  destruct (upload_folder_bucket_not_ready Posix Sample.uploader
              (upload_file Posix Sample.uploader) Sample.templates ""
              Scenario.env_no_bucket []
              [EvClient Sample.uploader; EvListBuckets]
              [EvClient Sample.uploader; EvListBuckets;
               EvClient Sample.uploader; EvHeadBucket "docs";
               EvClient Sample.uploader; EvCreateBucket "docs"]
              ["other"] eq_refl) as (Hrun & Haccess & _).
  - done.
  - by intros ?%list_elem_of_singleton.
  - reflexivity.
  - split; [exact Hrun | exact Haccess].
Defined.

(** *** The folder *)

(** Before the checks of the folder, only the store is called. *)
Lemma find_docx_files_folder (fl : flavour) (self : Uploader) (folder : path)
    (env : Env) (h : history) :
  ∃ found evs hb,
    find_docx_files fl self folder env h = (found, h ++ evs)
    ∧ ((found = Return None
        ∧ Forall (λ ev, is_folder_access ev = false
                        ∧ is_transfer ev = false) evs)
       ∨ ∃ evs0 evs3,
           evs = evs0 ++ evs3
           ∧ hb = h ++ evs0
           ∧ Forall (λ ev, is_folder_access ev = false
                           ∧ is_transfer ev = false) evs0
           ∧ folder_checks fl folder env hb = (found, hb ++ evs3)).
Proof.
  destruct (find_docx_files_steps fl self folder env h)
    as (buckets & h1 & ready & h2 & Hlb & Hready & ->).
  destruct (list_buckets_events self env h) as (buckets' & evs1 & Hlb' & Hevs1).
  rewrite Hlb in Hlb'. injection Hlb' as <- ->.
  assert (Hevs1' : Forall (λ ev, is_folder_access ev = false
                                 ∧ is_transfer ev = false) evs1)
    by (eapply Forall_impl; [exact Hevs1|]; by intros ev [-> | ->]).
  destruct buckets as [|b buckets].
  { exists (Return None), evs1, h. split; [done|]. by left. }
  assert (∃ evs2, h2 = h ++ evs1 ++ evs2
                  ∧ Forall (λ ev, is_folder_access ev = false
                                  ∧ is_transfer ev = false) evs2)
    as (evs2 & -> & Hevs2).
  { case_bool_decide.
    - injection Hready as _ <-. exists []. by rewrite app_nil_r.
    - destruct (create_bucket_if_not_exists_events self env (h ++ evs1))
        as (created & evs2 & Hc & Hevs2).
      rewrite Hready in Hc. injection Hc as _ ->. exists evs2.
      split; [by rewrite app_assoc|].
      eapply Forall_impl; [exact Hevs2|]. by intros ev [-> | [-> | ->]]. }
  destruct ready.
  - destruct (folder_checks_events fl folder env (h ++ evs1 ++ evs2))
      as (found & evs3 & Hfc & _).
    exists found, ((evs1 ++ evs2) ++ evs3), (h ++ evs1 ++ evs2).
    split; [by rewrite Hfc, <- !app_assoc|].
    right. exists (evs1 ++ evs2), evs3.
    split; [done|]. split; [done|]. split; [by apply Forall_app|done].
  - exists (Return None), (evs1 ++ evs2), h. split; [done|]. left.
    split; [done|]. by apply Forall_app.
Qed.

Lemma upload_folder_with_none (fl : flavour) (self : Uploader)
    (task : string → option string → M outcome) (folder : path)
    (prefix : string) (env : Env) (h h' : history) :
  find_docx_files fl self folder env h = (Return None, h') →
  upload_folder_with fl self task folder prefix env h = (Return ∅, h').
Proof.
  intros Hfind. unfold upload_folder_with. unfold bind at 1. by rewrite Hfind.
Qed.

Lemma Forall_filter_nil_and (f g : event → bool) (evs : history) :
  Forall (λ ev, f ev = false ∧ g ev = false) evs →
  List.filter f evs = [] ∧ List.filter g evs = [].
Proof.
  intros H. split; apply Forall_filter_nil;
    (eapply Forall_impl; [exact H|]); by intros ev [? ?].
Qed.

Lemma Forall_no_folder_scan (evs : history) :
  Forall (λ ev, is_folder_access ev = false ∧ is_transfer ev = false) evs →
  List.filter is_folder_scan evs = [].
Proof.
  intros H. apply Forall_filter_nil.
  eapply Forall_impl; [exact H|]. by intros [] [? ?].
Qed.

(** X13: when the folder does not exist, [upload_folder] returns the empty
    mapping without raising; it asks neither whether the folder is a
    directory nor for its files, reads no file and puts no object. *)
Theorem upload_folder_missing_folder (fl : flavour) (self : Uploader)
    (task : string → option string → M outcome) (folder : path)
    (prefix : string) (env : Env) (h : history) :
  (∀ h0, env_exists env h0 (path_str fl folder) = Return false) →
  ∃ h',
    upload_folder_with fl self task folder prefix env h = (Return ∅, h')
    ∧ calls_since is_folder_scan h h' = 0
    ∧ calls_since is_transfer h h' = 0.
Proof.
  intros Hmissing.
  destruct (find_docx_files_folder fl self folder env h)
    as (found & evs & hb & Hfind & [[-> Hevs]|Hchecks]).
  - exists (h ++ evs). split; [by apply upload_folder_with_none|].
    rewrite !calls_since_app, (Forall_no_folder_scan evs) by done.
    apply Forall_filter_nil_and in Hevs as [_ Ht]. by rewrite Ht.
  - destruct Hchecks as (evs0 & evs3 & -> & -> & Hevs0 & Hfc).
    unfold folder_checks in Hfc. cbn zeta in Hfc.
    rewrite Hmissing in Hfc. injection Hfc as <- Hevs3.
    apply app_inv_head in Hevs3 as <-.
    exists (h ++ evs0 ++ [EvExists (path_str fl folder)]).
    split; [by apply upload_folder_with_none|].
    rewrite !calls_since_app, !List.filter_app, !length_app.
    rewrite (Forall_no_folder_scan evs0) by done.
    apply Forall_filter_nil_and in Hevs0 as [_ Ht]. by rewrite Ht.
Qed.

Lemma upload_folder_missing_folder_witness :
  ∃ h',
    upload_folder Posix Sample.uploader Sample.templates ""
      Scenario.env_no_folder [] = (Return ∅, h')
    ∧ calls_since is_folder_scan [] h' = 0
    ∧ calls_since is_transfer [] h' = 0.
Proof.
  apply (upload_folder_missing_folder Posix Sample.uploader
           (upload_file Posix Sample.uploader) Sample.templates ""
           Scenario.env_no_folder []).
  intros h0. reflexivity.
Defined.

(** X14: when the looks at the folder answer, and the folder is not a
    directory or holds no file matching [**/*.docx], [upload_folder]
    returns the empty mapping without raising, reads no file, puts no
    object and signs no url. *)
Theorem upload_folder_nothing_to_upload (fl : flavour) (self : Uploader)
    (task : string → option string → M outcome) (folder : path)
    (prefix : string) (env : Env) (h : history) :
  (∀ h0, is_raise (env_exists env h0 (path_str fl folder)) = false) →
  (∀ h0, env_is_dir env h0 (path_str fl folder) = Return false)
  ∨ ((∀ h0, is_raise (env_is_dir env h0 (path_str fl folder)) = false)
     ∧ ∀ h0, env_glob env h0 (path_str fl folder) "**/*.docx" = Return []) →
  ∃ h',
    upload_folder_with fl self task folder prefix env h = (Return ∅, h')
    ∧ calls_since is_transfer h h' = 0.
Proof.
  intros Hexists Hnothing.
  destruct (find_docx_files_folder fl self folder env h)
    as (found & evs & hb & Hfind & [[-> Hevs]|Hchecks]).
  - exists (h ++ evs). split; [by apply upload_folder_with_none|].
    rewrite calls_since_app.
    apply Forall_filter_nil_and in Hevs as [_ Ht]. by rewrite Ht.
  - destruct Hchecks as (evs0 & evs3 & -> & -> & Hevs0 & Hfc).
    destruct (folder_checks_events fl folder env (h ++ evs0))
      as (found' & evs3' & Hfc' & Hevs3).
    rewrite Hfc in Hfc'. injection Hfc' as <- Heq.
    apply app_inv_head in Heq as <-.
    assert (found = Return None) as ->.
    { unfold folder_checks in Hfc. cbn zeta in Hfc.
      specialize (Hexists (h ++ evs0)).
      destruct (env_exists env _ _) as [[|]|e]; [|by injection Hfc|done].
      destruct Hnothing as [Hdir|[Hdir Hglob]].
      - rewrite Hdir in Hfc. by injection Hfc.
      - specialize (Hdir ((h ++ evs0) ++ [EvExists (path_str fl folder)])).
        destruct (env_is_dir env _ _) as [[|]|e]; [|by injection Hfc|done].
        rewrite Hglob in Hfc. by injection Hfc. }
    exists (h ++ evs0 ++ evs3). split; [by apply upload_folder_with_none|].
    rewrite calls_since_app, !List.filter_app, !length_app.
    apply Forall_filter_nil_and in Hevs0 as [_ Ht]. rewrite Ht.
    rewrite (Forall_filter_nil is_transfer evs3); [done|].
    eapply Forall_impl; [exact Hevs3|]. by intros [].
Qed.

Lemma upload_folder_nothing_to_upload_witness :
  ∃ h',
    upload_folder Posix Sample.uploader Sample.templates ""
      Scenario.env_no_docx [] = (Return ∅, h')
    ∧ calls_since is_transfer [] h' = 0.
Proof.
  apply (upload_folder_nothing_to_upload Posix Sample.uploader
           (upload_file Posix Sample.uploader) Sample.templates ""
           Scenario.env_no_docx []).
  - intros h0. reflexivity.
  - right. split; intros h0; reflexivity.
Defined.

(** X15: the mapping that [upload_folder] returns is empty exactly when the
    checks before the upload stopped the run; an empty mapping means that
    no file was read, no object put and no url signed. *)
Theorem upload_folder_empty_means_untouched (fl : flavour) (self : Uploader)
    (folder : path) (prefix : string) (env : Env) (h h' : history)
    (upload_results : gmap string outcome) :
  upload_folder fl self folder prefix env h = (Return upload_results, h') →
  ∃ found h1,
    find_docx_files fl self folder env h = (Return found, h1)
    ∧ (upload_results = ∅ ↔ found = None)
    ∧ (upload_results = ∅ → calls_since is_transfer h h' = 0).
Proof.
  intros Hrun'.
  destruct (upload_folder_events fl self folder prefix env h)
    as (found & r & evs1 & evs2 & Hfind & Hrun & Hevs1 & _ & _ & _ & _ & _
        & Hfound).
  rewrite Hrun in Hrun'. injection Hrun' as -> <-.
  destruct found as [[docx_files|]|e].
  - destruct Hfound as (Hne & m & [= <-] & Hdom).
    exists (Some docx_files), (h ++ evs1). split; [done|].
    assert (Hnonempty : upload_results ≠ ∅).
    { intros ->. rewrite dom_empty_L in Hdom.
      destruct docx_files as [|f fs]; [done|]. cbn in Hdom.
      assert (Hin : path_str fl f ∈ ({[path_str fl f]}
                      ∪ list_to_set (path_str fl <$> fs) : gset string))
        by (apply elem_of_union_l, elem_of_singleton; done).
      rewrite <- Hdom in Hin. by apply not_elem_of_empty in Hin. }
    split; [by split|done].
  - destruct Hfound as [[= <-] ->].
    exists None, (h ++ evs1). split; [done|]. split; [done|].
    intros _. rewrite app_nil_r, calls_since_app.
    by rewrite (Forall_filter_nil is_transfer evs1).
  - by destruct Hfound as [[=] _].
Qed.

Lemma upload_folder_empty_means_untouched_witness :
  ∃ h',
    upload_folder Posix Sample.uploader Sample.templates ""
      Scenario.env_no_docx [] = (Return ∅, h')
    ∧ calls_since is_transfer [] h' = 0.
Proof.
  eexists.
  destruct (upload_folder_empty_means_untouched Posix Sample.uploader
              Sample.templates "" Scenario.env_no_docx [] _ _ eq_refl)
    as (found & h1 & Hfind & Hiff & Huntouched).
  split; [reflexivity|]. by apply Huntouched.
Defined.

(** X16: in any run of [upload_folder], whether it returns or a look at the
    folder raises, every object is put in the bucket of the uploader, as a
    DOCX document, under a key without backslash; there are at most as many
    reads as discovered files, at most as many puts as reads, and at most
    as many signed urls as puts. *)
Theorem upload_folder_puts_are_wellformed (fl : flavour) (self : Uploader)
    (folder : path) (prefix : string) (env : Env) (h : history) :
  ∃ found h1 result h',
    find_docx_files fl self folder env h = (found, h1)
    ∧ upload_folder fl self folder prefix env h = (result, h')
    ∧ appended (put_object_wellformed self) h h'
    ∧ calls_since is_presign h h' ≤ calls_since is_put_object h h'
    ∧ calls_since is_put_object h h' ≤ calls_since is_read h h'
    ∧ calls_since is_read h h' ≤ length (discovered_files found)
    ∧ (folder_checks_answer env → is_raise result = false).
Proof.
  destruct (upload_folder_events fl self folder prefix env h)
    as (found & r & evs1 & evs2 & Hfind & Hrun & Hevs1 & _ & Hevs2 & Hs & Hp
        & Hr & Hfound).
  exists found, (h ++ evs1), r, (h ++ evs1 ++ evs2).
  split; [done|]. split; [done|]. split.
  { exists (evs1 ++ evs2). split; [done|]. apply Forall_app. split.
    - eapply Forall_impl; [exact Hevs1|]. by intros [].
    - eapply Forall_impl; [exact Hevs2|]. by intros []. }
  rewrite !calls_since_app, !List.filter_app, !length_app.
  assert (Hno : ∀ f, (∀ ev, f ev = true → is_transfer ev = true) →
                     List.filter f evs1 = []).
  { intros f Hf. apply Forall_filter_nil.
    eapply Forall_impl; [exact Hevs1|]. intros ev Hev.
    destruct (f ev) eqn:Hfev; [|done]. apply Hf in Hfev. congruence. }
  rewrite (Hno is_presign), (Hno is_put_object), (Hno is_read);
    [|by intros []..].
  cbn. repeat (split; [lia|]).
  intros Hanswer.
  destruct (find_docx_files_returns fl self folder env h Hanswer)
    as (found' & h1' & Hfind').
  rewrite Hfind in Hfind'. injection Hfind' as -> _.
  destruct found' as [docx_files|].
  - by destruct Hfound as (_ & m & -> & _).
  - by destruct Hfound as [-> _].
Qed.

Lemma upload_folder_puts_are_wellformed_witness :
  ∃ result h',
    upload_folder Posix Sample.uploader Sample.templates "out/" Sample.env_ok []
    = (result, h')
    ∧ appended (put_object_wellformed Sample.uploader) [] h'
    ∧ is_raise result = false.
Proof.
  destruct (upload_folder_puts_are_wellformed Posix Sample.uploader
              Sample.templates "out/" Sample.env_ok [])
    as (found & h1 & r & h' & _ & Hrun & Hput & _ & _ & _ & Hreturns).
  exists r, h'. split; [exact Hrun|]. split; [exact Hput|].
  apply Hreturns. repeat split; intros; reflexivity.
Defined.

(** *** The report of a batch *)

Lemma omap_rows_of_successes (items : list (string * outcome)) :
  Forall (λ entry : string * outcome,
            Report.truthy entry.2.2 = entry.2.1) items →
  omap Report.entry_row items
  = (λ entry : string * outcome,
       (basename Posix entry.1, default "" entry.2.2))
      <$> filter (λ entry : string * outcome, entry.2.1 = true) items.
Proof.
  induction 1 as [|entry items Hentry _ IH]; [done|].
  cbn [omap list_omap]. unfold Report.entry_row at 1.
  rewrite filter_cons, Hentry, IH.
  destruct (entry.2.1); by case_decide.
Qed.

(** X17: reporting the mapping that [upload_folder] returned, in whatever
    order the mapping is enumerated, and as long as the store signs no
    empty url, the rows that [main] has written are the first of the rows
    of the successful uploads, base name and url, and none is the row of a
    failed upload; the loop stops early only at an exception of [print] or
    [writerow], and when it ends without one there is exactly one row for
    each entry with [success = True]. *)
Theorem report_rows_are_successes (fl : flavour) (self : Uploader)
    (folder : path) (prefix : string) (env : Env) (h h' : history)
    (upload_results : gmap string outcome) (out : Report.output)
    (items : list (string * outcome)) :
  presigned_urls_nonempty env →
  upload_folder fl self folder prefix env h = (Return upload_results, h') →
  items ≡ₚ map_to_list upload_results →
  ∃ r err,
    Report.write_report out items Report.empty_report = (r, err)
    ∧ (∀ e, err = Some e → Report.raised_by_output out e)
    ∧ Report.rows r
      `prefix_of`
      ((λ entry : string * outcome,
          (basename Posix entry.1, default "" entry.2.2))
         <$> filter (λ entry : string * outcome, entry.2.1 = true) items)
    ∧ (err = None →
       Report.rows r
       = (λ entry : string * outcome,
            (basename Posix entry.1, default "" entry.2.2))
           <$> filter (λ entry : string * outcome, entry.2.1 = true) items
       ∧ length (Report.rows r)
         = length (filter (λ entry : string * outcome, entry.2.1 = true)
                     (map_to_list upload_results)))
    ∧ (Report.output_accepts_all out → err = None).
Proof.
  intros Hsigned Hrun Hitems.
  destruct (write_report_run out items Report.empty_report)
    as (r & err & Hr & Herr & _ & (written & rest & Hsplit & Hrows & Hrest)
        & Hok).
  exists r, err. split; [done|]. split; [done|].
  assert (Hall : Forall (λ entry : string * outcome,
                           Report.truthy entry.2.2 = entry.2.1) items).
  { apply Forall_forall. intros [k o] Hin. rewrite Hitems in Hin.
    apply elem_of_map_to_list in Hin.
    destruct (upload_folder_entries fl self folder prefix env h h'
                upload_results Hrun k o Hin) as [Hshape Hurl].
    specialize (Hurl Hsigned). cbn.
    destruct Hshape as [[url ->]| ->]; [|done].
    cbn in *. unfold url_nonempty in Hurl. cbn in Hurl.
    destruct (String.eqb_spec url "") as [->|_]; [done|done]. }
  rewrite omap_rows_of_successes in Hsplit by done.
  cbn in Hrows. split; [by exists rest; rewrite Hsplit, Hrows|].
  split.
  - intros ->%Hrest. rewrite app_nil_r in Hsplit.
    rewrite Hrows, <- Hsplit. split; [done|].
    rewrite length_fmap. by rewrite Hitems.
  - intros Hall'. by destruct (Hok Hall') as [-> _].
Qed.

Lemma report_rows_are_successes_witness :
  ∃ upload_results h' r,
    upload_folder Posix Sample.uploader Sample.templates "" Sample.env_ok []
    = (Return upload_results, h')
    ∧ Report.write_report Scenario.output_ok (map_to_list upload_results)
        Report.empty_report = (r, None)
    ∧ length (Report.rows r)
      = length (filter (λ entry : string * outcome, entry.2.1 = true)
                  (map_to_list upload_results)).
Proof.
  eexists _, _.
  assert (Hsigned : presigned_urls_nonempty Sample.env_ok).
  { intros h b k ttl url [= <-]. discriminate. }
  destruct (report_rows_are_successes Posix Sample.uploader Sample.templates
              "" Sample.env_ok [] _ _ Scenario.output_ok (map_to_list _)
              Hsigned eq_refl (reflexivity _))
    as (r & err & Hr & _ & _ & Hrows & Hok).
  assert (err = None) as -> by (apply Hok; by split).
  exists r. split; [reflexivity|]. split; [exact Hr|].
  by destruct Hrows as [_ Hlen].
Defined.

(** *** The entries of a batch *)

(** X18: when the client always opens, every file can be read and the store
    accepts every [put_object], every entry of the mapping that
    [upload_folder] returns is a success with a url. *)
Theorem upload_folder_all_succeed (fl : flavour) (self : Uploader)
    (folder : path) (prefix : string) (env : Env) (h h' : history)
    (upload_results : gmap string outcome) :
  (∀ h0, env_client env h0 self = Return tt) →
  (∀ h0 p, is_raise (env_read env h0 p) = false) →
  (∀ h0 bucket key body content_type,
     env_put_object env h0 bucket key body content_type = Return tt) →
  upload_folder fl self folder prefix env h = (Return upload_results, h') →
  ∀ k o, upload_results !! k = Some o → ∃ url, o = (true, Some url).
Proof.
  intros Hclient Hread Hput.
  apply upload_folder_entries_of_tasks. intros file_path key h0.
  rewrite upload_file_run. cbn zeta. rewrite Hclient.
  specialize (Hread (h0 ++ [EvClient self]) file_path).
  destruct (env_read _ _ _) as [content|e]; [|done].
  rewrite Hput.
  destruct (get_file_url_events self (default (basename fl file_path) key) env
              (h0 ++ [EvClient self; EvRead file_path;
                      EvPutObject (bucket_name self)
                        (default (basename fl file_path) key) content
                        docx_content_type])) as (url & evs & -> & _).
  by exists url.
Qed.

Lemma upload_folder_all_succeed_witness :
  ∃ upload_results h',
    upload_folder Posix Sample.uploader Sample.templates "" Sample.env_ok []
    = (Return upload_results, h')
    ∧ ∀ k o, upload_results !! k = Some o → ∃ url, o = (true, Some url).
Proof.
  eexists _, _. split; [reflexivity|].
  eapply (upload_folder_all_succeed Posix Sample.uploader Sample.templates ""
            Sample.env_ok []); try reflexivity.
Defined.

(** X19: when the store refuses every [put_object], every entry of the
    mapping that [upload_folder] returns is [(False, None)]: the batch still
    returns, with one failure per file. *)
Theorem upload_folder_all_fail (fl : flavour) (self : Uploader)
    (folder : path) (prefix : string) (env : Env) (h h' : history)
    (upload_results : gmap string outcome) :
  (∀ h0 bucket key body content_type,
     is_raise (env_put_object env h0 bucket key body content_type) = true) →
  upload_folder fl self folder prefix env h = (Return upload_results, h') →
  ∀ k o, upload_results !! k = Some o → o = (false, None).
Proof.
  intros Hput.
  apply upload_folder_entries_of_tasks. intros file_path key h0.
  rewrite upload_file_run. cbn zeta.
  destruct (env_client env h0 self) as [[]|e]; [|done].
  destruct (env_read _ _ _) as [content|e]; [|done].
  match goal with
  | |- context [env_put_object env ?h1 ?b ?k ?c ?ct] =>
      specialize (Hput h1 b k c ct);
      destruct (env_put_object env h1 b k c ct) as [[]|e]; [done|done]
  end.
Qed.

Lemma upload_folder_all_fail_witness :
  ∃ upload_results h',
    upload_folder Posix Sample.uploader Sample.templates ""
      Scenario.env_put_refused [] = (Return upload_results, h')
    ∧ upload_results !! "templates/a.docx" = Some (false, None).
Proof.
  eexists _, _. split; [reflexivity|].
  match goal with
  | |- ?m !! ?k = _ => destruct (m !! k) as [o|] eqn:Ho
  end.
  2:{ vm_compute in Ho. discriminate. }
  f_equal.
  refine (upload_folder_all_fail Posix Sample.uploader Sample.templates ""
            Scenario.env_put_refused [] _ _ _ eq_refl "templates/a.docx" o Ho).
  reflexivity.
Defined.

Lemma get_file_url_history_independent (self : Uploader) (key : string)
    (env : Env) (h1 h2 : history) :
  history_independent env →
  (get_file_url self key env h1).1 = (get_file_url self key env h2).1.
Proof.
  intros (Hc & _ & _ & Hs). rewrite !get_file_url_run, (Hc h1 h2).
  destruct (env_client env h2 self) as [[]|e]; [|done].
  rewrite (Hs (h1 ++ [EvClient self]) (h2 ++ [EvClient self])).
  by destruct (env_presign _ _ _ _ _).
Qed.

Lemma upload_file_history_independent (fl : flavour) (self : Uploader)
    (file_path : string) (object_name : option string) (env : Env)
    (h1 h2 : history) :
  history_independent env →
  (upload_file fl self file_path object_name env h1).1
  = (upload_file fl self file_path object_name env h2).1.
Proof.
  intros Hind. pose proof Hind as (Hc & Hr & Hp & _).
  rewrite !upload_file_run. cbn zeta. rewrite (Hc h1 h2).
  destruct (env_client env h2 self) as [[]|e]; [|done].
  rewrite (Hr (h1 ++ [EvClient self]) (h2 ++ [EvClient self])).
  destruct (env_read _ _ _) as [content|e]; [|done].
  rewrite (Hp (h1 ++ [EvClient self; EvRead file_path])
              (h2 ++ [EvClient self; EvRead file_path])).
  destruct (env_put_object _ _ _ _ _ _) as [[]|e]; [|done].
  match goal with
  | |- context [get_file_url self ?k env (h1 ++ ?evs)] =>
      pose proof (get_file_url_history_independent self k env
                    (h1 ++ evs) (h2 ++ evs) Hind) as Hurl
  end.
  destruct (get_file_url _ _ _ (h1 ++ _)) as [r1 h1'].
  destruct (get_file_url _ _ _ (h2 ++ _)) as [r2 h2'].
  cbn in Hurl. subst r2. by destruct r1.
Qed.

(** X20: with a store and a file system whose answers do not depend on the
    earlier calls, the entry of each discovered file is the outcome of
    uploading that file alone: the failure of one file changes no other
    entry. *)
Theorem upload_folder_entries_independent (fl : flavour) (self : Uploader)
    (folder : path) (prefix : string) (env : Env) (h h1 : history)
    (docx_files : list path) :
  history_independent env →
  find_docx_files fl self folder env h = (Return (Some docx_files), h1) →
  NoDup (path_str fl <$> docx_files) →
  ∃ upload_results h',
    upload_folder fl self folder prefix env h = (Return upload_results, h')
    ∧ ∀ rel,
        joinpath folder rel ∈ docx_files →
        upload_results !! path_str fl (joinpath folder rel)
        = Some (stored_outcome
                  (upload_file fl self (path_str fl (joinpath folder rel))
                     (Some (replace_char backslash slash
                              (prefix +:+ path_str fl
                                 {| anchor := ""; names := rel |})))
                     env []).1).
Proof.
  intros Hind Hfind Hnd. unfold upload_folder.
  destruct (upload_folder_with_run fl self (upload_file fl self) folder
              prefix env h) as (found & h1' & Hfind' & Hrun).
  rewrite Hfind in Hfind'. injection Hfind' as <- <-.
  destruct Hrun as (tasks & results & h2 & Htasks & Hg & Hlen & Hrun).
  exists (collect_results fl docx_files results), h2. split; [done|].
  destruct (find_docx_files_found fl self folder env h _ _ Hfind)
    as (_ & rels & ->).
  rewrite make_tasks_joinpath in Htasks. injection Htasks as <-.
  intros rel Hin. apply list_elem_of_lookup in Hin as [i Hi].
  pose proof Hi as Hrel. rewrite list_lookup_fmap in Hrel.
  destruct (rels !! i) as [rel'|] eqn:Hrel'; [|done].
  cbn in Hrel. injection Hrel as Hnames. apply app_inv_head in Hnames as ->.
  destruct (λ t Ht, gather_lookup _ env h1 h2 results i t Hg Ht)
    with (t := upload_file fl self (path_str fl (joinpath folder rel))
                 (Some (replace_char backslash slash
                          (prefix +:+ path_str fl
                             {| anchor := ""; names := rel |}))))
    as [hi Hres]; [by rewrite list_lookup_fmap, Hrel'|].
  unfold collect_results.
  rewrite (lookup_foldl_record fl _ results ∅ i _ _ Hnd Hi Hres).
  do 2 f_equal. by apply upload_file_history_independent.
Qed.

Lemma upload_folder_entries_independent_witness :
  ∃ upload_results h',
    upload_folder Posix Sample.uploader Sample.templates ""
      Scenario.env_one_unreadable [] = (Return upload_results, h')
    ∧ upload_results !! "templates/a.docx" = Some (false, None)
    ∧ upload_results !! "templates/b.docx"
      = Some (true, Some "https://signed/b.docx").
Proof.
  destruct (upload_folder_entries_independent Posix Sample.uploader
              Sample.templates "" Scenario.env_one_unreadable []
              [EvClient Sample.uploader; EvListBuckets;
               EvExists "templates"; EvIsDir "templates";
               EvGlob "templates" "**/*.docx"]
              [joinpath Sample.templates ["a.docx"];
               joinpath Sample.templates ["b.docx"]])
    as (m & h' & Hrun & Hentries).
  - repeat split; intros; reflexivity.
  - reflexivity.
  - by apply (bool_decide_unpack _).
  - exists m, h'. split; [exact Hrun|]. split.
    + apply (Hentries ["a.docx"]). apply list_elem_of_here.
    + apply (Hentries ["b.docx"]).
      apply list_elem_of_further, list_elem_of_here.
Defined.
